(** * Venue-booking approval workflow: storage and route handlers

    A shallow embedding of the booking core of the dashboard
    ([shared/schema.ts], [server/persistent-storage.ts], [server/storage.ts],
    [server/routes.ts]) and the properties of its availability check, its
    status transitions and its history ledger.

    Conventions.
    - A JS [Date] is its epoch time in milliseconds ([getTime]); the process
      time zone is UTC, so [toDateString] depends on the day number only.
    - Optional / nullable fields are [option]; [None] is an absent key.
    - Strings are compared as JS compares them ([<=] on strings is
      lexicographic on code units; all time-of-day strings are ASCII).
    - [Math.random] and [new Date()] are oracles of the environment. *)

From stdpp Require Import base option list strings.
From Stdlib Require Import ZArith Lia String Ascii Sorted.

Local Open Scope string_scope.
Local Open Scope Z_scope.

(** ** shared/schema.ts *)

Inductive UserRole := user | group_director | secretary | it_team.

Inductive MeetingType := offline | online | miscellaneous.

Inductive BookingStatus :=
  | submitted | gd_approved | gd_rejected
  | secretary_approved | secretary_rejected
  | it_setup_complete | completed | cancelled.

#[global] Instance UserRole_eq_dec : EqDecision UserRole.
Proof. solve_decision. Defined.

#[global] Instance BookingStatus_eq_dec : EqDecision BookingStatus.
Proof. solve_decision. Defined.

#[global] Instance MeetingType_eq_dec : EqDecision MeetingType.
Proof. solve_decision. Defined.

(** The wire name of a status, as template literals print it. *)
Definition statusName (s : BookingStatus) : string :=
  match s with
  | submitted => "submitted"
  | gd_approved => "gd_approved"
  | gd_rejected => "gd_rejected"
  | secretary_approved => "secretary_approved"
  | secretary_rejected => "secretary_rejected"
  | it_setup_complete => "it_setup_complete"
  | completed => "completed"
  | cancelled => "cancelled"
  end.

Definition Date := Z.

Definition getTime (d : Date) : Z := d.

Definition msPerDay : Z := 86400000.

(** [Date.prototype.toDateString]: the calendar day, time of day dropped.
    The rendered text is a one-to-one function of the day number. *)
Definition toDateString (d : Date) : Z := d `div` msPerDay.

Record User := mkUser {
  user_id : string;
  username : string;
  user_role : UserRole;
}.

Record Venue := mkVenue {
  venue_id : string;
  venue_name : string;
  capacity : Z;
}.

(** [InsertBooking]: the booking columns left after the [omit] of
    [insertBookingSchema]. *)
Record InsertBooking := mkInsertBooking {
  ins_userId : string;
  ins_venueId : string;
  ins_eventTitle : string;
  ins_eventDescription : option string;
  ins_meetingType : MeetingType;
  ins_eventDate : Date;
  ins_startTime : string;
  ins_endTime : string;
  ins_expectedAttendees : Z;
  ins_department : string;
  ins_requestedResources : option (list string);
  ins_specialRequirements : option string;
}.

Record Booking := mkBooking {
  id : string;
  userId : string;
  venueId : string;
  eventTitle : string;
  eventDescription : option string;
  meetingType : MeetingType;
  eventDate : Date;
  startTime : string;
  endTime : string;
  expectedAttendees : Z;
  department : string;
  requestedResources : option (list string);
  specialRequirements : option string;
  status : BookingStatus;
  gdApprovalDate : option Date;
  gdRemarks : option string;
  secretaryApprovalDate : option Date;
  secretaryRemarks : option string;
  itSetupDate : option Date;
  itRemarks : option string;
  createdAt : option Date;
  updatedAt : option Date;
}.

Record InsertBookingHistory := mkInsertBookingHistory {
  ih_bookingId : string;
  ih_status : BookingStatus;
  ih_remarks : option string;
  ih_changedBy : string;
}.

Record BookingHistory := mkBookingHistory {
  h_id : string;
  h_bookingId : string;
  h_status : BookingStatus;
  h_remarks : option string;
  h_changedBy : string;
  h_createdAt : Date;
}.

(** ** JavaScript helpers *)

(** Truthiness of a [string | undefined]: [undefined] and the empty string
    are falsy. *)
Definition truthy (s : option string) : bool :=
  match s with
  | Some EmptyString => false
  | Some _ => true
  | None => false
  end.

(** [a || b] on strings. *)
Definition orElse (a : option string) (b : string) : string :=
  match a with
  | Some EmptyString => b
  | Some s => s
  | None => b
  end.

Definition streq (a b : string) : bool := String.eqb a b.

(** [a <= b] and [a >= b] on strings. *)
Definition strle (a b : string) : bool := String.leb a b.
Definition strge (a b : string) : bool := String.leb b a.

(** [Array.prototype.findIndex]; [None] stands for [-1]. *)
Fixpoint findIndex {A} (p : A -> bool) (l : list A) : option nat :=
  match l with
  | [] => None
  | x :: t => if p x then Some 0%nat else S <$> findIndex p t
  end.

(** [Array.prototype.find]. *)
Definition find {A} (p : A -> bool) (l : list A) : option A := List.find p l.

(** [Array.prototype.sort] is stable: an insertion sort on the key the
    comparator subtracts. [sortAsc] is [(a, b) => key a - key b],
    [sortDesc] is [(a, b) => key b - key a]. *)
Fixpoint insertAsc {A} (key : A -> Z) (x : A) (l : list A) : list A :=
  match l with
  | [] => [x]
  | y :: t => if key x <=? key y then x :: y :: t else y :: insertAsc key x t
  end.

Definition sortAsc {A} (key : A -> Z) (l : list A) : list A :=
  foldr (insertAsc key) [] l.

Fixpoint insertDesc {A} (key : A -> Z) (x : A) (l : list A) : list A :=
  match l with
  | [] => [x]
  | y :: t => if key y <=? key x then x :: y :: t else y :: insertDesc key x t
  end.

Definition sortDesc {A} (key : A -> Z) (l : list A) : list A :=
  foldr (insertDesc key) [] l.

(** ** The run-time: clock, random ids, exceptions

    An async method is a computation over the system state that either
    returns or throws; what it wrote before throwing stays written.
    [dateAt n] is what the n-th [new Date()] of the process returns and
    [randomId n] what the n-th id generator call returns. *)

Record Env := mkEnv {
  dateAt : nat -> Date;
  randomId : nat -> string;
}.

(** A [status_update] message handed to the WebSocket clients. *)
Record StatusUpdate := mkStatusUpdate {
  su_bookingId : string;
  su_status : BookingStatus;
  su_timestamp : Date;
}.

Record Sys (St : Type) := mkSys {
  heap : St;
  ticks : nat;
  draws : nat;
  outbox : list StatusUpdate;
}.
Arguments mkSys {St} _ _ _ _.
Arguments heap {St} _.
Arguments ticks {St} _.
Arguments draws {St} _.
Arguments outbox {St} _.

Inductive Outcome (A : Type) :=
  | Ok (a : A)
  | Throw (message : string).
Arguments Ok {A} _.
Arguments Throw {A} _.

Definition M (St A : Type) : Type := Env -> Sys St -> Outcome A * Sys St.

Definition ret {St A} (a : A) : M St A := fun _ w => (Ok a, w).

Definition bind {St A B} (m : M St A) (k : A -> M St B) : M St B :=
  fun env w =>
    match m env w with
    | (Ok a, w') => k a env w'
    | (Throw e, w') => (Throw e, w')
    end.

Definition throw {St A} (message : string) : M St A := fun _ w => (Throw message, w).

(** [try { m } catch (error) { handler }]. *)
Definition tryCatch {St A} (m : M St A) (handler : string -> M St A) : M St A :=
  fun env w =>
    match m env w with
    | (Ok a, w') => (Ok a, w')
    | (Throw e, w') => handler e env w'
    end.

Definition gets {St A} (f : St -> A) : M St A := fun _ w => (Ok (f (heap w)), w).

Definition modify {St} (f : St -> St) : M St unit :=
  fun _ w => (Ok tt, mkSys (f (heap w)) (ticks w) (draws w) (outbox w)).

(** [new Date()]. *)
Definition newDate {St} : M St Date :=
  fun env w => (Ok (dateAt env (ticks w)),
                mkSys (heap w) (S (ticks w)) (draws w) (outbox w)).

(** [Math.random().toString(36).substr(2, 9)] or [gen_random_uuid()]. *)
Definition generateId {St} : M St string :=
  fun env w => (Ok (randomId env (draws w)),
                mkSys (heap w) (ticks w) (S (draws w)) (outbox w)).

(** [client.send(message)] for the connected clients. *)
Definition emit {St} (u : StatusUpdate) : M St unit :=
  fun _ w => (Ok tt, mkSys (heap w) (ticks w) (draws w) (outbox w ++ [u])).

Notation "'let!' x ':=' m 'in' k" := (bind m (fun x => k))
  (at level 10, x name, m at level 100, k at level 200).
Notation "m ;; k" := (bind m (fun _ => k))
  (at level 100, k at level 200, right associativity).

(** ** server/persistent-storage.ts *)

Module PersistentStorage.

(** The arrays of the storage object. *)
Record Store := mkStore {
  users : list User;
  venues : list Venue;
  bookings : list Booking;
  bookingHistory : list BookingHistory;
}.

Definition setBookings (l : list Booking) (st : Store) : Store :=
  mkStore (users st) (venues st) l (bookingHistory st).

Definition setBookingHistory (l : list BookingHistory) (st : Store) : Store :=
  mkStore (users st) (venues st) (bookings st) l.

Record BookingWithDetails := mkBookingWithDetails {
  bwd_booking : Booking;
  bwd_user : User;
  bwd_venue : Venue;
}.

(** [saveAllData] rewrites the JSON files from the arrays and swallows
    write errors; the arrays are untouched. *)
Definition saveAllData : M Store unit := ret tt.

Definition getUser (st : Store) (id0 : string) : option User :=
  find (fun u => streq (user_id u) id0) (users st).

Definition getVenue (st : Store) (id0 : string) : option Venue :=
  find (fun v => streq (venue_id v) id0) (venues st).

(** The callback of the [filter] in [checkVenueAvailability]. *)
Definition conflicts (venueId0 : string) (date : Date)
    (startTime0 endTime0 : string) (excludeBookingId : option string)
    (booking : Booking) : bool :=
  if truthy excludeBookingId && bool_decide (Some (id booking) = excludeBookingId)
  then false
  else if negb (streq (venueId booking) venueId0) then false
  else if bool_decide (status booking = cancelled)
          || bool_decide (status booking = gd_rejected)
          || bool_decide (status booking = secretary_rejected) then false
  else if negb (toDateString (eventDate booking) =? toDateString date) then false
  else negb (strle endTime0 (startTime booking) || strge startTime0 (endTime booking)).

Definition checkVenueAvailability (st : Store) (venueId0 : string) (date : Date)
    (startTime0 endTime0 : string) (excludeBookingId : option string) : bool :=
  let conflictingBookings :=
    List.filter (conflicts venueId0 date startTime0 endTime0 excludeBookingId)
                (bookings st) in
  (List.length conflictingBookings =? 0)%nat.

Definition addBookingHistory (historyData : InsertBookingHistory)
    : M Store BookingHistory :=
  let! i := generateId in
  let! now := newDate in
  let history := mkBookingHistory i (ih_bookingId historyData)
                   (ih_status historyData) (ih_remarks historyData)
                   (ih_changedBy historyData) now in
  modify (fun st => setBookingHistory (bookingHistory st ++ [history]) st) ;;
  saveAllData ;;
  ret history.

Definition createBooking (bookingData : InsertBooking) : M Store Booking :=
  let! i := generateId in
  let! created := newDate in
  let! updated := newDate in
  let booking := mkBooking i
        (ins_userId bookingData) (ins_venueId bookingData)
        (ins_eventTitle bookingData) (ins_eventDescription bookingData)
        (ins_meetingType bookingData) (ins_eventDate bookingData)
        (ins_startTime bookingData) (ins_endTime bookingData)
        (ins_expectedAttendees bookingData) (ins_department bookingData)
        (ins_requestedResources bookingData)
        (ins_specialRequirements bookingData)
        submitted None None None None None None
        (Some created) (Some updated) in
  modify (fun st => setBookings (bookings st ++ [booking]) st) ;;
  addBookingHistory (mkInsertBookingHistory (id booking) submitted
                       (Some "Booking request submitted") (userId booking)) ;;
  saveAllData ;;
  ret booking.

Definition getBooking (st : Store) (id0 : string) : option BookingWithDetails :=
  match find (fun b => streq (id b) id0) (bookings st) with
  | None => None
  | Some booking =>
      match getUser st (userId booking), getVenue st (venueId booking) with
      | Some u, Some v => Some (mkBookingWithDetails booking u v)
      | _, _ => None
      end
  end.

(** [{ ...old, ...bookingData, updatedAt }]: a key the parsed data lacks
    keeps the old value. *)
Definition spreadInsert (old : Booking) (bookingData : InsertBooking)
    (now : Date) : Booking :=
  mkBooking (id old)
    (ins_userId bookingData) (ins_venueId bookingData)
    (ins_eventTitle bookingData)
    (match ins_eventDescription bookingData with
     | Some d => Some d | None => eventDescription old end)
    (ins_meetingType bookingData) (ins_eventDate bookingData)
    (ins_startTime bookingData) (ins_endTime bookingData)
    (ins_expectedAttendees bookingData) (ins_department bookingData)
    (match ins_requestedResources bookingData with
     | Some r => Some r | None => requestedResources old end)
    (match ins_specialRequirements bookingData with
     | Some r => Some r | None => specialRequirements old end)
    (status old)
    (gdApprovalDate old) (gdRemarks old)
    (secretaryApprovalDate old) (secretaryRemarks old)
    (itSetupDate old) (itRemarks old)
    (createdAt old) (Some now).

Definition updateBooking (id0 : string) (bookingData : InsertBooking)
    : M Store Booking :=
  let! index := gets (fun st => findIndex (fun b => streq (id b) id0) (bookings st)) in
  match index with
  | None => throw "Booking not found"
  | Some i =>
      let! now := newDate in
      let! old := gets (fun st => bookings st !! i) in
      match old with
      | None => throw "unreachable"
      | Some b =>
          let b' := spreadInsert b bookingData now in
          modify (fun st => setBookings (<[i := b']> (bookings st)) st) ;;
          saveAllData ;;
          ret b'
      end
  end.

(** [{ ...old, ...updates }] with the [updates] the switch fills in. *)
Definition spreadStatus (old : Booking) (status0 : BookingStatus)
    (now : Date) (remarks : option string) : Booking :=
  let gd := match status0 with gd_approved | gd_rejected => true | _ => false end in
  let sec := match status0 with
             | secretary_approved | secretary_rejected => true | _ => false end in
  let it := match status0 with it_setup_complete => true | _ => false end in
  mkBooking (id old) (userId old) (venueId old) (eventTitle old)
    (eventDescription old) (meetingType old) (eventDate old)
    (startTime old) (endTime old) (expectedAttendees old) (department old)
    (requestedResources old) (specialRequirements old)
    status0
    (if gd then Some now else gdApprovalDate old)
    (if gd then remarks else gdRemarks old)
    (if sec then Some now else secretaryApprovalDate old)
    (if sec then remarks else secretaryRemarks old)
    (if it then Some now else itSetupDate old)
    (if it then remarks else itRemarks old)
    (createdAt old) (Some now).

Definition updateBookingStatus (id0 : string) (status0 : BookingStatus)
    (userId0 : string) (remarks : option string) : M Store Booking :=
  let! index := gets (fun st => findIndex (fun b => streq (id b) id0) (bookings st)) in
  match index with
  | None => throw "Booking not found"
  | Some i =>
      let! now := newDate in
      let! old := gets (fun st => bookings st !! i) in
      match old with
      | None => throw "unreachable"
      | Some b =>
          let b' := spreadStatus b status0 now remarks in
          modify (fun st => setBookings (<[i := b']> (bookings st)) st) ;;
          addBookingHistory (mkInsertBookingHistory id0 status0
            (Some (orElse remarks ("Status updated to " ++ statusName status0)))
            userId0) ;;
          saveAllData ;;
          ret b'
      end
  end.

Definition getBookingHistory (st : Store) (bookingId : string)
    : list BookingHistory :=
  sortAsc (fun h => getTime (h_createdAt h))
    (List.filter (fun h => streq (h_bookingId h) bookingId) (bookingHistory st)).

End PersistentStorage.

(** ** server/storage.ts

    The drizzle queries of [DatabaseStorage] read as their SQL: [where] is a
    filter on the rows, [orderBy(desc c)] a descending sort, [update ... set]
    rewrites the rows that match and skips [undefined] values, [insert]
    fills [id] and [created_at] from the column defaults and fails on a
    foreign key that has no row. *)

Module DatabaseStorage.

Record Tables := mkTables {
  users : list User;
  bookings : list Booking;
  bookingHistory : list BookingHistory;
}.

Definition lte (column value : string) : bool := strle column value.
Definition gte (column value : string) : bool := strge column value.

Definition timeClause (startTime0 endTime0 : string) (b : Booking) : bool :=
  (lte (startTime b) startTime0 && gte (endTime b) startTime0)
  || (lte (startTime b) endTime0 && gte (endTime b) endTime0)
  || (gte (startTime b) startTime0 && lte (endTime b) endTime0).

Definition statusClause (b : Booking) : bool :=
  bool_decide (status b = submitted)
  || bool_decide (status b = gd_approved)
  || bool_decide (status b = secretary_approved)
  || bool_decide (status b = it_setup_complete)
  || bool_decide (status b = completed).

Definition checkVenueAvailability (db : Tables) (venueId0 : string) (date : Date)
    (startTime0 endTime0 : string) (excludeBookingId : option string) : bool :=
  let query := List.filter (fun b =>
      streq (venueId b) venueId0
      && (eventDate b =? date)
      && timeClause startTime0 endTime0 b
      && statusClause b) (bookings db) in
  let finalQuery :=
    if truthy excludeBookingId then
      List.filter (fun b =>
        streq (venueId b) venueId0
        && (eventDate b =? date)
        && negb (bool_decide (Some (id b) = excludeBookingId))
        && timeClause startTime0 endTime0 b
        && statusClause b) (bookings db)
    else query in
  (List.length finalQuery =? 0)%nat.

Definition addBookingHistory (historyData : InsertBookingHistory)
    : M Tables BookingHistory :=
  let! i := generateId in
  let! now := newDate in
  let! referenced := gets (fun db =>
      existsb (fun b => streq (id b) (ih_bookingId historyData)) (bookings db)
      && existsb (fun u => streq (user_id u) (ih_changedBy historyData)) (users db)) in
  if negb referenced then throw "violates foreign key constraint"
  else
    let history := mkBookingHistory i (ih_bookingId historyData)
                     (ih_status historyData) (ih_remarks historyData)
                     (ih_changedBy historyData) now in
    modify (fun db => mkTables (users db) (bookings db)
                        (bookingHistory db ++ [history])) ;;
    ret history.

(** [set(updateData)] on one row. *)
Definition setStatus (old : Booking) (status0 : BookingStatus)
    (stamp : Date) (remarks : option string) : Booking :=
  let gd := match status0 with gd_approved | gd_rejected => true | _ => false end in
  let sec := match status0 with
             | secretary_approved | secretary_rejected => true | _ => false end in
  let it := match status0 with it_setup_complete => true | _ => false end in
  let keep (new old : option string) :=
    match new with Some r => Some r | None => old end in
  mkBooking (id old) (userId old) (venueId old) (eventTitle old)
    (eventDescription old) (meetingType old) (eventDate old)
    (startTime old) (endTime old) (expectedAttendees old) (department old)
    (requestedResources old) (specialRequirements old)
    status0
    (if gd then Some stamp else gdApprovalDate old)
    (if gd then keep remarks (gdRemarks old) else gdRemarks old)
    (if sec then Some stamp else secretaryApprovalDate old)
    (if sec then keep remarks (secretaryRemarks old) else secretaryRemarks old)
    (if it then Some stamp else itSetupDate old)
    (if it then keep remarks (itRemarks old) else itRemarks old)
    (createdAt old) (updatedAt old).

Definition stamps (status0 : BookingStatus) : bool :=
  match status0 with
  | gd_approved | gd_rejected | secretary_approved | secretary_rejected
  | it_setup_complete => true
  | _ => false
  end.

Definition updateBookingStatus (id0 : string) (status0 : BookingStatus)
    (userId0 : string) (remarks : option string) : M Tables (option Booking) :=
  let! stamp := (if stamps status0 then newDate else ret 0) in
  let! returning := gets (fun db =>
      List.map (fun b => setStatus b status0 stamp remarks)
        (List.filter (fun b => streq (id b) id0) (bookings db))) in
  modify (fun db => mkTables (users db)
      (List.map (fun b => if streq (id b) id0
                          then setStatus b status0 stamp remarks else b)
                (bookings db))
      (bookingHistory db)) ;;
  addBookingHistory (mkInsertBookingHistory id0 status0 remarks userId0) ;;
  ret (head returning).

Definition getBookingHistory (db : Tables) (bookingId : string)
    : list BookingHistory :=
  sortDesc (fun h => getTime (h_createdAt h))
    (List.filter (fun h => streq (h_bookingId h) bookingId) (bookingHistory db)).

End DatabaseStorage.

(** ** server/routes.ts

    The handlers run on [persistentStorage]. [req.user] is the user the
    [authenticate] middleware resolved; a booking form is what the zod
    schema makes of the request body ([None]: it does not validate); the
    status of a status request is a [BookingStatus], as the signature of
    [updateBookingStatus] has it. *)

Module Routes.

Import PersistentStorage.

Inductive Body :=
  | Message (message : string)
  | BookingJson (b : Booking)
  | AvailableJson (available : bool)
  | HistoryJson (history : list BookingHistory).

Record Response := mkResponse {
  statusCode : Z;
  body : Body;
}.

(** [res.json(b)] and [res.status(c).json(b)]. *)
Definition json (b : Body) : Response := mkResponse 200 b.
Definition statusJson (c : Z) (b : Body) : Response := mkResponse c b.

Definition broadcastStatusUpdate (bookingId : string) (status0 : BookingStatus)
    : M Store unit :=
  let! timestamp := newDate in
  emit (mkStatusUpdate bookingId status0 timestamp).

(** [insertBookingSchema.parse({ ...req.body, userId: req.user.id, ... })]. *)
Definition parseBooking (reqBody : option InsertBooking) (uid : string)
    : M Store InsertBooking :=
  match reqBody with
  | None => throw "ZodError"
  | Some f =>
      ret (mkInsertBooking uid (ins_venueId f) (ins_eventTitle f)
             (ins_eventDescription f) (ins_meetingType f) (ins_eventDate f)
             (ins_startTime f) (ins_endTime f) (ins_expectedAttendees f)
             (ins_department f) (ins_requestedResources f)
             (ins_specialRequirements f))
  end.

Definition venueNotAvailable : Response :=
  statusJson 400 (Message "Venue not available for the selected time slot").

(** POST /api/venues/check-availability *)
Definition postCheckAvailability (venueId0 : string) (date : Date)
    (startTime0 endTime0 : string) (excludeBookingId : option string)
    : M Store Response :=
  let! available := gets (fun st =>
      checkVenueAvailability st venueId0 date startTime0 endTime0
        excludeBookingId) in
  ret (json (AvailableJson available)).

(** POST /api/bookings *)
Definition postBooking (actor : User) (reqBody : option InsertBooking)
    : M Store Response :=
  tryCatch
    (let! bookingData := parseBooking reqBody (user_id actor) in
     let! available := gets (fun st =>
         checkVenueAvailability st (ins_venueId bookingData)
           (ins_eventDate bookingData) (ins_startTime bookingData)
           (ins_endTime bookingData) None) in
     if negb available then ret venueNotAvailable
     else
       let! booking := createBooking bookingData in
       addBookingHistory (mkInsertBookingHistory (id booking) submitted
                            (Some "Booking request submitted") (user_id actor)) ;;
       broadcastStatusUpdate (id booking) submitted ;;
       ret (json (BookingJson booking)))
    (fun _ => ret (statusJson 400 (Message "Failed to create booking"))).

Definition editable (s : BookingStatus) : bool :=
  match s with
  | submitted | gd_rejected | secretary_rejected => true
  | _ => false
  end.

(** PATCH /api/bookings/:id *)
Definition patchBooking (actor : User) (bookingId : string)
    (reqBody : option InsertBooking) : M Store Response :=
  tryCatch
    (let! existingBooking := gets (fun st => getBooking st bookingId) in
     match existingBooking with
     | None => ret (statusJson 404 (Message "Booking not found"))
     | Some existing =>
         if negb (streq (userId (bwd_booking existing)) (user_id actor)) then
           ret (statusJson 403 (Message "Not authorized to edit this booking"))
         else if negb (editable (status (bwd_booking existing))) then
           ret (statusJson 400 (Message "Booking cannot be edited at this stage"))
         else
           let! updateData := parseBooking reqBody (user_id actor) in
           let! available := gets (fun st =>
               checkVenueAvailability st (ins_venueId updateData)
                 (ins_eventDate updateData) (ins_startTime updateData)
                 (ins_endTime updateData) (Some bookingId)) in
           if negb available then ret venueNotAvailable
           else
             let! updatedBooking := updateBooking bookingId updateData in
             addBookingHistory (mkInsertBookingHistory bookingId submitted
               (Some "Booking updated and resubmitted for approval")
               (user_id actor)) ;;
             updateBookingStatus bookingId submitted (user_id actor)
               (Some "Booking updated") ;;
             broadcastStatusUpdate bookingId submitted ;;
             ret (json (BookingJson updatedBooking))
     end)
    (fun _ => ret (statusJson 400 (Message "Failed to update booking"))).

(** GET /api/bookings/:id/history *)
Definition getHistory (bookingId : string) : M Store Response :=
  let! history := gets (fun st => getBookingHistory st bookingId) in
  ret (json (HistoryJson history)).

Definition cancellable (s : BookingStatus) : bool :=
  match s with
  | submitted | gd_approved | secretary_approved | gd_rejected
  | secretary_rejected => true
  | _ => false
  end.

(** PATCH /api/bookings/:id/cancel *)
Definition patchCancel (actor : User) (bookingId : string) : M Store Response :=
  tryCatch
    (let! existingBooking := gets (fun st => getBooking st bookingId) in
     match existingBooking with
     | None => ret (statusJson 404 (Message "Booking not found"))
     | Some existing =>
         if negb (streq (userId (bwd_booking existing)) (user_id actor)) then
           ret (statusJson 403 (Message "Not authorized to cancel this booking"))
         else if negb (cancellable (status (bwd_booking existing))) then
           ret (statusJson 400 (Message "Booking cannot be cancelled at this stage"))
         else
           updateBookingStatus bookingId cancelled (user_id actor)
             (Some "Booking cancelled by user") ;;
           addBookingHistory (mkInsertBookingHistory bookingId cancelled
             (Some "Booking cancelled by user") (user_id actor)) ;;
           broadcastStatusUpdate bookingId cancelled ;;
           ret (json (Message "Booking cancelled successfully"))
     end)
    (fun _ => ret (statusJson 500 (Message "Failed to cancel booking"))).

(** The [allowedRoles] table of the status route. *)
Definition allowedRoles (s : BookingStatus) : option (list UserRole) :=
  match s with
  | gd_approved => Some [group_director]
  | gd_rejected => Some [group_director]
  | secretary_approved => Some [secretary]
  | secretary_rejected => Some [secretary]
  | it_setup_complete => Some [it_team]
  | _ => None
  end.

Definition includes (l : list UserRole) (r : UserRole) : bool :=
  existsb (fun x => bool_decide (x = r)) l.

(** PATCH /api/bookings/:id/status *)
Definition patchStatus (actor : User) (bookingId : string)
    (status0 : BookingStatus) (remarks : option string) : M Store Response :=
  tryCatch
    (let denied :=
       match allowedRoles status0 with
       | Some roles => negb (includes roles (user_role actor))
       | None => false
       end in
     if denied then
       ret (statusJson 403 (Message "Insufficient permissions"))
     else
       let! booking := updateBookingStatus bookingId status0
                         (user_id actor) remarks in
       broadcastStatusUpdate bookingId status0 ;;
       ret (json (BookingJson booking)))
    (fun _ => ret (statusJson 500 (Message "Failed to update booking status"))).

(** The requests that write to the store. *)
Inductive Request :=
  | PostBooking (actor : User) (reqBody : option InsertBooking)
  | PatchBooking (actor : User) (bookingId : string)
      (reqBody : option InsertBooking)
  | PatchCancel (actor : User) (bookingId : string)
  | PatchStatus (actor : User) (bookingId : string)
      (status0 : BookingStatus) (remarks : option string).

Definition handle (r : Request) : M Store Response :=
  match r with
  | PostBooking actor reqBody => postBooking actor reqBody
  | PatchBooking actor bookingId reqBody => patchBooking actor bookingId reqBody
  | PatchCancel actor bookingId => patchCancel actor bookingId
  | PatchStatus actor bookingId status0 remarks =>
      patchStatus actor bookingId status0 remarks
  end.

End Routes.

(** ** Vocabulary of the specification *)

(** Keys that do not decrease (do not increase) along the list. *)
Definition ascending {A} (key : A -> Z) (l : list A) : Prop :=
  StronglySorted (fun a b => key a <= key b) l.

Definition descending {A} (key : A -> Z) (l : list A) : Prop :=
  StronglySorted (fun a b => key b <= key a) l.

(** The statuses that count toward availability conflicts. *)
Definition activeStatuses : list BookingStatus :=
  [submitted; gd_approved; secretary_approved; it_setup_complete; completed].

Definition sameCalendarDate (d1 d2 : Date) : Prop :=
  toDateString d1 = toDateString d2.

(** The half-open test on [requestedStart, requestedEnd) against the
    booking's [startTime, endTime). *)
Definition overlaps (requestedStart requestedEnd : string) (b : Booking) : Prop :=
  ~ (strle requestedEnd (startTime b) = true
     \/ strge requestedStart (endTime b) = true).

(** The booking an [excludeBookingId] takes out of the scan; an id that is
    absent or empty takes none out. *)
Definition excluded (excludeBookingId : option string) (b : Booking) : Prop :=
  truthy excludeBookingId = true /\ excludeBookingId = Some (id b).

(** A booking that blocks a request for a venue, date and time range. *)
Definition blocks (venueId0 : string) (date : Date)
    (requestedStart requestedEnd : string) (b : Booking) : Prop :=
  venueId b = venueId0
  /\ sameCalendarDate (eventDate b) date
  /\ In (status b) activeStatuses
  /\ overlaps requestedStart requestedEnd b.

(** The row [addBookingHistory] writes in a given system state. *)
Definition historyRow (env : Env) (w : Sys PersistentStorage.Store)
    (hd : InsertBookingHistory) : BookingHistory :=
  mkBookingHistory (randomId env (draws w)) (ih_bookingId hd) (ih_status hd)
    (ih_remarks hd) (ih_changedBy hd) (dateAt env (ticks w)).

(** The booking [createBooking] builds in a given system state. *)
Definition newBooking (env : Env) (w : Sys PersistentStorage.Store)
    (data : InsertBooking) : Booking :=
  mkBooking (randomId env (draws w))
    (ins_userId data) (ins_venueId data) (ins_eventTitle data)
    (ins_eventDescription data) (ins_meetingType data) (ins_eventDate data)
    (ins_startTime data) (ins_endTime data) (ins_expectedAttendees data)
    (ins_department data) (ins_requestedResources data)
    (ins_specialRequirements data)
    submitted None None None None None None
    (Some (dateAt env (ticks w))) (Some (dateAt env (S (ticks w)))).

(** The predicate of the [find] / [findIndex] calls on the bookings. *)
Definition byId (id0 : string) : Booking -> bool := fun b => streq (id b) id0.

(** The gate of the status route: the target status has an entry in
    [allowedRoles] and the entry lacks the actor's role. *)
Definition denied (actor : User) (s : BookingStatus) : bool :=
  match Routes.allowedRoles s with
  | Some roles => negb (Routes.includes roles (user_role actor))
  | None => false
  end.

(** What [parseBooking] returns for a body that validates. *)
Definition parsed (actor : User) (f : InsertBooking) : InsertBooking :=
  mkInsertBooking (user_id actor) (ins_venueId f) (ins_eventTitle f)
    (ins_eventDescription f) (ins_meetingType f) (ins_eventDate f)
    (ins_startTime f) (ins_endTime f) (ins_expectedAttendees f)
    (ins_department f) (ins_requestedResources f)
    (ins_specialRequirements f).

(** *** The ledger and its invariant *)

(** The clock never runs backwards. *)
Definition clockMonotone (env : Env) : Prop :=
  forall n m, (n <= m)%nat -> dateAt env n <= dateAt env m.

(** The id [createBooking] is about to draw is not the id of a stored
    booking. *)
Definition freshId (env : Env) (w : Sys PersistentStorage.Store) : Prop :=
  ~ In (randomId env (draws w)) (List.map id (PersistentStorage.bookings (heap w))).

Definition admissible (env : Env) (w : Sys PersistentStorage.Store)
    (r : Routes.Request) : Prop :=
  match r with
  | Routes.PostBooking _ _ => freshId env w
  | _ => True
  end.

(** The states the server reaches from an empty store: by the requests that
    write bookings, and by changes to the users and venues. *)
Inductive reachable (env : Env) : Sys PersistentStorage.Store -> Prop :=
  | reach_init us vs t d out :
      reachable env (mkSys (PersistentStorage.mkStore us vs [] []) t d out)
  | reach_request w r :
      reachable env w -> admissible env w r ->
      reachable env (snd (Routes.handle r env w))
  | reach_directory w us vs :
      reachable env w ->
      reachable env
        (mkSys (PersistentStorage.mkStore us vs
                  (PersistentStorage.bookings (heap w))
                  (PersistentStorage.bookingHistory (heap w)))
               (ticks w) (draws w) (outbox w)).

(** The ledger property: the chronological history of every booking starts
    with [submitted] and ends with the booking's current status. *)
Definition ledgerOk (st : PersistentStorage.Store) : Prop :=
  forall b, In b (PersistentStorage.bookings st) ->
    let history := PersistentStorage.getBookingHistory st (id b) in
    history <> []
    /\ h_status <$> head history = Some submitted
    /\ h_status <$> last history = Some (status b).

(** The rows of a booking in insertion order. *)
Definition rowsOf (st : PersistentStorage.Store) (k : string)
    : list BookingHistory :=
  List.filter (fun h => streq (h_bookingId h) k)
    (PersistentStorage.bookingHistory st).

Record Inv (env : Env) (w : Sys PersistentStorage.Store) : Prop := mkInv {
  inv_sorted : ascending h_createdAt (PersistentStorage.bookingHistory (heap w));
  inv_past : forall h, In h (PersistentStorage.bookingHistory (heap w)) ->
             h_createdAt h <= dateAt env (ticks w);
  inv_ids : NoDup (List.map id (PersistentStorage.bookings (heap w)));
  inv_owned : forall h, In h (PersistentStorage.bookingHistory (heap w)) ->
              In (h_bookingId h) (List.map id (PersistentStorage.bookings (heap w)));
  inv_trail : forall b, In b (PersistentStorage.bookings (heap w)) ->
              h_status <$> head (rowsOf (heap w) (id b)) = Some submitted
              /\ h_status <$> last (rowsOf (heap w) (id b)) = Some (status b);
}.

(** New rows carry clock readings taken during the step. *)
Definition timed (env : Env) (w w' : Sys PersistentStorage.Store)
    (rows : list BookingHistory) : Prop :=
  (ticks w <= ticks w')%nat
  /\ ascending h_createdAt rows
  /\ Forall (fun h => dateAt env (ticks w) <= h_createdAt h
                      /\ h_createdAt h <= dateAt env (ticks w')) rows.

(** What one request does to the bookings and the ledger. *)
Inductive ledgerStep (env : Env) (w w' : Sys PersistentStorage.Store) : Prop :=
  | ls_unchanged :
      PersistentStorage.bookings (heap w') = PersistentStorage.bookings (heap w) ->
      PersistentStorage.bookingHistory (heap w')
        = PersistentStorage.bookingHistory (heap w) ->
      (ticks w <= ticks w')%nat ->
      ledgerStep env w w'
  | ls_created nb rows :
      PersistentStorage.bookings (heap w')
        = (PersistentStorage.bookings (heap w) ++ [nb])%list ->
      ~ In (id nb) (List.map id (PersistentStorage.bookings (heap w))) ->
      status nb = submitted ->
      PersistentStorage.bookingHistory (heap w')
        = (PersistentStorage.bookingHistory (heap w) ++ rows)%list ->
      rows <> [] ->
      Forall (fun h => h_bookingId h = id nb /\ h_status h = submitted) rows ->
      timed env w w' rows ->
      ledgerStep env w w'
  | ls_moved i b b' rows :
      PersistentStorage.bookings (heap w) !! i = Some b ->
      PersistentStorage.bookings (heap w')
        = <[i := b']> (PersistentStorage.bookings (heap w)) ->
      id b' = id b ->
      PersistentStorage.bookingHistory (heap w')
        = (PersistentStorage.bookingHistory (heap w) ++ rows)%list ->
      Forall (fun h => h_bookingId h = id b) rows ->
      h_status <$> last rows = Some (status b') ->
      timed env w w' rows ->
      ledgerStep env w w'.

(** The message a history row carries when the request has no remarks. *)
Definition defaultRemarks (s : BookingStatus) : string :=
  "Status updated to " ++ statusName s.

(** The role the specification requires for a target status. *)
Definition requiredRole (s : BookingStatus) : option UserRole :=
  match s with
  | gd_approved | gd_rejected => Some group_director
  | secretary_approved | secretary_rejected => Some secretary
  | it_setup_complete => Some it_team
  | submitted | completed | cancelled => None
  end.

(** *** A small installation, for the worked scenarios *)

Module Demo.

Definition env : Env :=
  mkEnv (fun n => 1709280000000 + Z.of_nat n)
        (fun n => String (ascii_of_nat (97 + n)) "").

Definition alice : User := mkUser "u1" "alice" user.
Definition bob : User := mkUser "u2" "bob" user.
Definition director : User := mkUser "d1" "director" group_director.
Definition clerk : User := mkUser "s1" "secretary" secretary.
Definition hall : Venue := mkVenue "v1" "Main Auditorium" 500.

(** 2024-03-01 and 2024-03-02, midnight. *)
Definition march1 : Date := 1709251200000.
Definition march2 : Date := 1709337600000.

Definition form (startTime0 endTime0 : string) : InsertBooking :=
  mkInsertBooking "" "v1" "Review" None offline march1 startTime0 endTime0
    12 "R&D" None None.

Definition start : Sys PersistentStorage.Store :=
  mkSys (PersistentStorage.mkStore [alice; bob; director; clerk] [hall] [] [])
        0 0 [].

(** alice books the hall on 2024-03-01 from 10:00 to 12:00; the booking
    gets the id ["a"]. *)
Definition booked : Sys PersistentStorage.Store :=
  snd (Routes.handle (Routes.PostBooking alice (Some (form "10:00" "12:00")))
         env start).

(** The director approves it. *)
Definition approved : Sys PersistentStorage.Store :=
  snd (Routes.handle (Routes.PatchStatus director "a" gd_approved (Some "ok"))
         env booked).

(** A booking the director has approved, as the arrays of the file-backed
    storage hold it, with its two history rows; and bob's booking for the
    afternoon. *)
Definition row : Booking :=
  mkBooking "a" "u1" "v1" "Review" None offline march1 "10:00" "12:00"
    12 "R&D" None None gd_approved (Some 1709273600000) (Some "ok")
    None None None None
    (Some 1709270000000) (Some 1709273600000).

Definition row2 : Booking :=
  mkBooking "b" "u2" "v1" "Seminar" None offline march1 "14:00" "15:00"
    30 "R&D" None None submitted None None None None None None
    (Some 1709274000000) (Some 1709274000000).

Definition rows : list BookingHistory :=
  [mkBookingHistory "h1" "a" submitted
     (Some "Booking request submitted") "u1" 1709270000000;
   mkBookingHistory "h2" "a" gd_approved (Some "ok") "d1" 1709273600000;
   mkBookingHistory "h3" "b" submitted
     (Some "Booking request submitted") "u2" 1709274000000].

Definition stored : Sys PersistentStorage.Store :=
  mkSys (PersistentStorage.mkStore [alice; bob; director; clerk] [hall]
           [row; row2] rows)
        0 3 [].

(** The same rows as tables of the database. *)
Definition tables : Sys DatabaseStorage.Tables :=
  mkSys (DatabaseStorage.mkTables [alice; bob; director; clerk] [row; row2] rows)
        0 3 [].

End Demo.

(** ** server/persistent-storage.ts, the listings

    The remaining booking methods of [PersistentStorage]: each filters the
    bookings array, joins every booking with its user and venue, and sorts
    the result. *)

Module PersistentListings.

Import PersistentStorage.

(** The [for] loop of the listings: a booking whose user or venue is not
    found is left out. *)
Fixpoint withDetails (st : Store) (l : list Booking) : list BookingWithDetails :=
  match l with
  | [] => []
  | booking :: rest =>
      match getUser st (userId booking), getVenue st (venueId booking) with
      | Some u, Some v => mkBookingWithDetails booking u v :: withDetails st rest
      | _, _ => withDetails st rest
      end
  end.

(** [new Date(x.createdAt).getTime()] and [new Date(x.updatedAt).getTime()].
    Without the field JS computes NaN and the place of the entry in the
    sorted array is up to the engine; what is stated about the order of a
    listing assumes the field is set. *)
Definition createdTime (d : BookingWithDetails) : Z :=
  match createdAt (bwd_booking d) with Some t => getTime t | None => 0 end.

Definition updatedTime (d : BookingWithDetails) : Z :=
  match updatedAt (bwd_booking d) with Some t => getTime t | None => 0 end.

(** [[...].includes(b.status)]. *)
Definition statusIn (l : list BookingStatus) (s : BookingStatus) : bool :=
  existsb (fun x => bool_decide (x = s)) l.

Definition getBookingsByUser (st : Store) (userId0 : string)
    : list BookingWithDetails :=
  let userBookings := List.filter (fun b => streq (userId b) userId0) (bookings st) in
  sortDesc createdTime (withDetails st userBookings).

Definition getBookingsByStatus (st : Store) (status0 : BookingStatus)
    : list BookingWithDetails :=
  let statusBookings :=
    List.filter (fun b => bool_decide (status b = status0)) (bookings st) in
  sortDesc createdTime (withDetails st statusBookings).

Definition getBookingsByRole (st : Store) (role : UserRole)
    : list BookingWithDetails :=
  let filteredBookings :=
    match role with
    | group_director =>
        List.filter (fun b => bool_decide (status b = submitted)) (bookings st)
    | secretary =>
        List.filter (fun b => bool_decide (status b = gd_approved)) (bookings st)
    | it_team =>
        List.filter (fun b => bool_decide (status b = secretary_approved)) (bookings st)
    | user => []
    end in
  sortDesc createdTime (withDetails st filteredBookings).

Definition getProcessedBookingsByRole (st : Store) (role : UserRole)
    : list BookingWithDetails :=
  let filteredBookings :=
    match role with
    | group_director =>
        List.filter (fun b =>
          statusIn [gd_approved; gd_rejected; secretary_approved;
                    secretary_rejected; it_setup_complete; completed; cancelled]
                   (status b)) (bookings st)
    | secretary =>
        List.filter (fun b =>
          statusIn [secretary_approved; secretary_rejected; it_setup_complete;
                    completed; cancelled] (status b)) (bookings st)
    | it_team =>
        List.filter (fun b =>
          statusIn [it_setup_complete; completed; cancelled] (status b))
          (bookings st)
    | user => []
    end in
  sortDesc updatedTime (withDetails st filteredBookings).

Definition getAllBookings (st : Store) : list BookingWithDetails :=
  sortDesc createdTime (withDetails st (bookings st)).

End PersistentListings.

(** ** server/auth.ts and the reading routes of server/routes.ts *)

Module ReadRoutes.

Import PersistentStorage PersistentListings.

(** [authorize(...roles)]: the answer that ends the request, or [None] for
    [next()]. *)
Definition authorize (roles : list UserRole) (reqUser : option User)
    : option Routes.Response :=
  match reqUser with
  | None => Some (Routes.statusJson 401 (Routes.Message "User not authenticated"))
  | Some u =>
      if negb (Routes.includes roles (user_role u))
      then Some (Routes.statusJson 403 (Routes.Message "Insufficient permissions"))
      else None
  end.

(** What a reading route answers: a refusal, a list of bookings, or one
    booking. *)
Inductive Reply :=
  | Refused (response : Routes.Response)
  | BookingList (l : list BookingWithDetails)
  | OneBooking (d : BookingWithDetails).

(** GET /api/bookings/pending/director, .../secretary, .../it: the route
    of a role is [authorize(role)] and then [getBookingsByRole(role)]. *)
Definition getPending (role : UserRole) (reqUser : option User) (st : Store)
    : Reply :=
  match authorize [role] reqUser with
  | Some response => Refused response
  | None => BookingList (getBookingsByRole st role)
  end.

(** GET /api/bookings/processed/director, .../secretary, .../it. *)
Definition getProcessed (role : UserRole) (reqUser : option User) (st : Store)
    : Reply :=
  match authorize [role] reqUser with
  | Some response => Refused response
  | None => BookingList (getProcessedBookingsByRole st role)
  end.

(** GET /api/bookings/user *)
Definition getUserBookings (actor : User) (st : Store) : Reply :=
  BookingList (getBookingsByUser st (user_id actor)).

(** GET /api/bookings/:id *)
Definition getBookingById (bookingId : string) (st : Store) : Reply :=
  match getBooking st bookingId with
  | None => Refused (Routes.statusJson 404 (Routes.Message "Booking not found"))
  | Some booking => OneBooking booking
  end.

End ReadRoutes.

(** ** client/src/pages/user: Bookings.tsx, Dashboard.tsx, TrackStatus.tsx *)

Module Client.

Import PersistentStorage.

(** Bookings.tsx *)
Definition canEditBooking (booking : BookingWithDetails) : bool :=
  bool_decide (status (bwd_booking booking) = submitted)
  || bool_decide (status (bwd_booking booking) = gd_rejected)
  || bool_decide (status (bwd_booking booking) = secretary_rejected).

Definition canCancelBooking (booking : BookingWithDetails) : bool :=
  let cancellableStatuses :=
    [submitted; gd_approved; secretary_approved; gd_rejected; secretary_rejected] in
  PersistentListings.statusIn cancellableStatuses (status (bwd_booking booking)).



(** TrackStatus.tsx *)
Record Step := mkStep {
  step_id : Z;
  step_status : BookingStatus;
  step_completed : bool;
  step_rejected : option bool;
  step_date : option Date;
  step_remarks : option string;
}.

Definition getTrackingSteps (selectedBooking : option BookingWithDetails)
    : list Step :=
  match selectedBooking with
  | None => []
  | Some selected =>
      let b := bwd_booking selected in
      [ mkStep 1 submitted true None (createdAt b) None;
        mkStep 2 gd_approved
          (PersistentListings.statusIn
             [gd_approved; secretary_approved; it_setup_complete; completed]
             (status b))
          (Some (bool_decide (status b = gd_rejected)))
          (gdApprovalDate b) (gdRemarks b);
        mkStep 3 secretary_approved
          (PersistentListings.statusIn
             [secretary_approved; it_setup_complete; completed] (status b))
          (Some (bool_decide (status b = secretary_rejected)))
          (secretaryApprovalDate b) (secretaryRemarks b);
        mkStep 4 it_setup_complete
          (PersistentListings.statusIn [it_setup_complete; completed] (status b))
          None (itSetupDate b) (itRemarks b) ]
  end.

End Client.

(** *** Vocabulary for the further properties *)

(** The user a request acts for. *)
Definition actorOf (r : Routes.Request) : User :=
  match r with
  | Routes.PostBooking actor _ => actor
  | Routes.PatchBooking actor _ _ => actor
  | Routes.PatchCancel actor _ => actor
  | Routes.PatchStatus actor _ _ _ => actor
  end.

(** The booking a request names, and the status it asks to store. *)
Definition bookingIdOf (r : Routes.Request) : option string :=
  match r with
  | Routes.PostBooking _ _ => None
  | Routes.PatchBooking _ bookingId _ => Some bookingId
  | Routes.PatchCancel _ bookingId => Some bookingId
  | Routes.PatchStatus _ bookingId _ _ => Some bookingId
  end.

Definition targetStatus (r : Routes.Request) : BookingStatus :=
  match r with
  | Routes.PostBooking _ _ => submitted
  | Routes.PatchBooking _ _ _ => submitted
  | Routes.PatchCancel _ _ => cancelled
  | Routes.PatchStatus _ _ status0 _ => status0
  end.

(** A booking carries its creation and update times, and the timestamp of
    the stage its status names. *)
Definition stamped (b : Booking) : Prop :=
  is_Some (createdAt b) /\ is_Some (updatedAt b)
  /\ (In (status b) [gd_approved; gd_rejected] -> is_Some (gdApprovalDate b))
  /\ (In (status b) [secretary_approved; secretary_rejected] ->
      is_Some (secretaryApprovalDate b))
  /\ (status b = it_setup_complete -> is_Some (itSetupDate b)).

(** The closed intervals [startTime, endTime] of a booking and of a request
    meet. *)
Definition meets (requestedStart requestedEnd : string) (b : Booking) : Prop :=
  strle (startTime b) requestedEnd = true /\ strle requestedStart (endTime b) = true.

(** The status a role's pending queue shows, and the statuses its
    processed list shows, as the switches of [getBookingsByRole] and
    [getProcessedBookingsByRole] have them. *)
Definition pendingStatus (role : UserRole) : option BookingStatus :=
  match role with
  | group_director => Some submitted
  | secretary => Some gd_approved
  | it_team => Some secretary_approved
  | user => None
  end.

Definition processedStatuses (role : UserRole) : list BookingStatus :=
  match role with
  | group_director =>
      [gd_approved; gd_rejected; secretary_approved; secretary_rejected;
       it_setup_complete; completed; cancelled]
  | secretary =>
      [secretary_approved; secretary_rejected; it_setup_complete; completed;
       cancelled]
  | it_team => [it_setup_complete; completed; cancelled]
  | user => []
  end.

(** A stored booking together with the user and the venue the store
    finds for it. *)
Definition joined (st : PersistentStorage.Store)
    (d : PersistentStorage.BookingWithDetails) : Prop :=
  In (PersistentStorage.bwd_booking d) (PersistentStorage.bookings st)
  /\ PersistentStorage.getUser st (userId (PersistentStorage.bwd_booking d))
     = Some (PersistentStorage.bwd_user d)
  /\ PersistentStorage.getVenue st (venueId (PersistentStorage.bwd_booking d))
     = Some (PersistentStorage.bwd_venue d).

(** *** More stored bookings, for the worked scenarios of the listings *)

Module Scenario.

(** A booking bob has cancelled, and one whose venue is not stored. *)
Definition withdrawn : Booking :=
  mkBooking "c" "u2" "v1" "Workshop" None online Demo.march2 "09:00" "10:00"
    8 "R&D" None None cancelled None None None None None None
    (Some 1709275000000) (Some 1709276000000).

Definition stray : Booking :=
  mkBooking "d" "u1" "v9" "Offsite" None offline Demo.march2 "11:00" "12:00"
    5 "R&D" None None submitted None None None None None None
    (Some 1709277000000) (Some 1709277000000).

Definition archive : PersistentStorage.Store :=
  PersistentStorage.mkStore
    [Demo.alice; Demo.bob; Demo.director; Demo.clerk] [Demo.hall]
    [Demo.row; Demo.row2; withdrawn; stray] Demo.rows.

(** A form for a venue that is not stored. *)
Definition offsiteForm : InsertBooking :=
  mkInsertBooking "" "v9" "Offsite" None offline Demo.march2 "11:00" "12:00"
    5 "R&D" None None.

Definition pendingOfDirector : PersistentStorage.BookingWithDetails :=
  PersistentStorage.mkBookingWithDetails Demo.row2 Demo.bob Demo.hall.

Definition processedOfDirector : PersistentStorage.BookingWithDetails :=
  PersistentStorage.mkBookingWithDetails Demo.row Demo.alice Demo.hall.

Definition withdrawnJoined : PersistentStorage.BookingWithDetails :=
  PersistentStorage.mkBookingWithDetails withdrawn Demo.bob Demo.hall.

End Scenario.

(** The cases of a request: refused with the state untouched, a booking
    created, or the first booking with the id rewritten in place. *)
Inductive Effect (env : Env) (w : Sys PersistentStorage.Store)
    (r : Routes.Request) : Prop :=
  | eff_refused response :
      Routes.handle r env w = (Ok response, w) -> 400 <= Routes.statusCode response ->
      Effect env w r
  | eff_created nb r1 r2 m body :
      fst (Routes.handle r env w) = Ok (Routes.json body) ->
      heap (snd (Routes.handle r env w))
        = PersistentStorage.mkStore (PersistentStorage.users (heap w)) (PersistentStorage.venues (heap w))
            (PersistentStorage.bookings (heap w) ++ [nb]) (PersistentStorage.bookingHistory (heap w) ++ [r1; r2]) ->
      outbox (snd (Routes.handle r env w)) = (outbox w ++ [m])%list ->
      id nb = randomId env (draws w) -> userId nb = user_id (actorOf r) ->
      status nb = submitted -> stamped nb ->
      (admissible env w r -> freshId env w) -> bookingIdOf r = None ->
      h_bookingId r1 = id nb -> h_bookingId r2 = id nb ->
      h_changedBy r1 = user_id (actorOf r) -> h_changedBy r2 = user_id (actorOf r) ->
      Effect env w r
  | eff_moved i old b' rows m body :
      fst (Routes.handle r env w) = Ok (Routes.json body) ->
      PersistentStorage.bookings (heap w) !! i = Some old ->
      heap (snd (Routes.handle r env w))
        = PersistentStorage.mkStore (PersistentStorage.users (heap w)) (PersistentStorage.venues (heap w))
            (<[i := b']> (PersistentStorage.bookings (heap w))) (PersistentStorage.bookingHistory (heap w) ++ rows) ->
      outbox (snd (Routes.handle r env w)) = (outbox w ++ [m])%list ->
      id b' = id old -> userId b' = userId old -> createdAt b' = createdAt old ->
      (stamped old -> stamped b') ->
      bookingIdOf r = Some (id old) -> status b' = targetStatus r ->
      (0 < List.length rows <= 2)%nat ->
      Forall (fun h => h_bookingId h = id old
                       /\ h_changedBy h = user_id (actorOf r)) rows ->
      Effect env w r.

(** * Properties *)

(** ** Arrays *)

Section Arrays.
Context {A : Type}.
Implicit Types (p : A -> bool) (l : list A) (key : A -> Z).

Lemma findIndex_None p l :
  findIndex p l = None <-> forall x, In x l -> p x = false.
Proof.
  induction l as [|y t IH]; simpl.
  - split; [intros _ x []|reflexivity].
  - destruct (p y) eqn:Hy.
    + split; [discriminate|]. intros H. rewrite (H y) in Hy by auto. discriminate.
    + destruct (findIndex p t) as [i|]; simpl.
      * split; [discriminate|]. intros H.
        assert (Hn : Some i = None) by (apply IH; intros x Hx; apply H; auto).
        discriminate.
      * split; [|reflexivity]. intros _ x [<-|Hx]; [assumption|].
        apply IH; auto.
Qed.

Lemma findIndex_Some p l i :
  findIndex p l = Some i ->
  exists x, l !! i = Some x /\ p x = true /\
            forall j y, (j < i)%nat -> l !! j = Some y -> p y = false.
Proof.
  revert i. induction l as [|y t IH]; simpl; intros i; [discriminate|].
  destruct (p y) eqn:Hy.
  - intros [= <-]. exists y. repeat split; auto. intros j z Hj. lia.
  - destruct (findIndex p t) as [k|]; simpl; [|discriminate].
    intros [= <-]. destruct (IH k eq_refl) as (x & Hx & Hpx & Hmin).
    exists x. repeat split; auto.
    intros [|j] z Hj; simpl; [intros [= <-]; assumption|].
    apply Hmin. lia.
Qed.

Lemma findIndex_In p l x :
  In x l -> p x = true -> exists i, findIndex p l = Some i.
Proof.
  intros Hin Hp. destruct (findIndex p l) as [i|] eqn:E; [eauto|].
  rewrite findIndex_None in E. rewrite (E x Hin) in Hp. discriminate.
Qed.

Lemma insertAsc_perm key x l : insertAsc key x l ≡ₚ x :: l.
Proof.
  induction l as [|y t IH]; simpl; [reflexivity|].
  destruct (key x <=? key y); [reflexivity|].
  rewrite IH. apply Permutation_swap.
Qed.

Lemma sortAsc_perm key l : sortAsc key l ≡ₚ l.
Proof.
  induction l as [|y t IH]; simpl; [reflexivity|].
  unfold sortAsc in *. simpl. rewrite insertAsc_perm, IH. reflexivity.
Qed.

Lemma insertAsc_ascending key x l :
  ascending key l -> ascending key (insertAsc key x l).
Proof.
  unfold ascending. induction l as [|y t IH]; simpl; intros Hs.
  - repeat constructor.
  - inversion Hs as [|? ? Ht Hy]; subst.
    destruct (key x <=? key y) eqn:E.
    + apply Z.leb_le in E. constructor; [assumption|].
      constructor; [assumption|].
      eapply Forall_impl; [exact Hy|]. simpl. intros; lia.
    + apply Z.leb_gt in E. constructor; [auto|].
      rewrite (insertAsc_perm key x t). constructor; [lia|assumption].
Qed.

Lemma sortAsc_ascending key l : ascending key (sortAsc key l).
Proof.
  induction l as [|y t IH]; simpl; [constructor|].
  apply insertAsc_ascending, IH.
Qed.

(** Sorting what is in order already changes nothing: with a stable
    sort, entries keep their insertion order. *)
Lemma sortAsc_id key l : ascending key l -> sortAsc key l = l.
Proof.
  unfold ascending. induction l as [|y t IH]; intros Hs; [reflexivity|].
  inversion Hs as [|? ? Ht Hy]; subst.
  unfold sortAsc in *. simpl. rewrite (IH Ht).
  destruct t as [|z t']; [reflexivity|]. simpl.
  inversion Hy as [|? ? Hz _]; subst.
  apply Z.leb_le in Hz. rewrite Hz. reflexivity.
Qed.

Lemma insertDesc_perm key x l : insertDesc key x l ≡ₚ x :: l.
Proof.
  induction l as [|y t IH]; simpl; [reflexivity|].
  destruct (key y <=? key x); [reflexivity|].
  rewrite IH. apply Permutation_swap.
Qed.

Lemma insertDesc_descending key x l :
  descending key l -> descending key (insertDesc key x l).
Proof.
  unfold descending. induction l as [|y t IH]; simpl; intros Hs.
  - repeat constructor.
  - inversion Hs as [|? ? Ht Hy]; subst.
    destruct (key y <=? key x) eqn:E.
    + apply Z.leb_le in E. constructor; [assumption|].
      constructor; [assumption|].
      eapply Forall_impl; [exact Hy|]. simpl. intros; lia.
    + apply Z.leb_gt in E. constructor; [auto|].
      rewrite (insertDesc_perm key x t). constructor; [lia|assumption].
Qed.

Lemma sortDesc_descending key l : descending key (sortDesc key l).
Proof.
  induction l as [|y t IH]; simpl; [constructor|].
  apply insertDesc_descending, IH.
Qed.

Lemma ascending_filter key p l :
  ascending key l -> ascending key (List.filter p l).
Proof.
  unfold ascending. induction 1 as [|y t Ht IH Hy]; simpl; [constructor|].
  destruct (p y); [|assumption].
  constructor; [assumption|].
  apply List.Forall_forall. intros z Hz. apply List.filter_In in Hz as [Hz _].
  rewrite List.Forall_forall in Hy. auto.
Qed.

Lemma ascending_snoc key l x :
  ascending key l -> (forall y, In y l -> key y <= key x) ->
  ascending key (l ++ [x]).
Proof.
  unfold ascending. induction 1 as [|y t Ht IH Hy]; simpl; intros Hx.
  - repeat constructor.
  - constructor; [apply IH; auto|].
    apply List.Forall_app. split; [assumption|].
    constructor; [apply Hx; auto|constructor].
Qed.
End Arrays.

(** ** Venue availability *)

Lemma strle_refl s : strle s s = true.
Proof. unfold strle. destruct (String.leb_total s s); assumption. Qed.

Lemma streq_true a b : streq a b = true <-> a = b.
Proof. apply String.eqb_eq. Qed.

Lemma streq_false a b : streq a b = false <-> a <> b.
Proof. apply String.eqb_neq. Qed.

Lemma streq_refl a : streq a a = true.
Proof. apply String.eqb_refl. Qed.

(** The three statuses the filter skips are the complement of the active
    set. *)
Lemma active_iff_not_skipped s :
  In s activeStatuses <->
  bool_decide (s = cancelled) || bool_decide (s = gd_rejected)
  || bool_decide (s = secretary_rejected) = false.
Proof.
  unfold activeStatuses. destruct s; simpl; split; intros H;
    try discriminate; try tauto;
    repeat (destruct H as [H|H]; try discriminate H); contradiction.
Qed.

Lemma truthy_Some_nonempty x : truthy (Some x) = true <-> x <> "".
Proof. destruct x; simpl; split; congruence. Qed.

(** The filter callback selects the blocking bookings that are not
    excluded. *)
Lemma conflicts_iff v d s e ex b :
  PersistentStorage.conflicts v d s e ex b = true <->
  ~ excluded ex b /\ blocks v d s e b.
Proof.
  unfold PersistentStorage.conflicts, excluded, blocks, sameCalendarDate, overlaps.
  destruct (truthy ex) eqn:Ht; simpl.
  - destruct (bool_decide_reflect (Some (id b) = ex)) as [He|He].
    + split; [discriminate|]. intros [Hn _]. exfalso. apply Hn. auto.
    + destruct (streq (venueId b) v) eqn:Hv; simpl.
      * apply streq_true in Hv.
        destruct (bool_decide (status b = cancelled) || bool_decide (status b = gd_rejected)
                  || bool_decide (status b = secretary_rejected)) eqn:Hs.
        -- split; [discriminate|]. intros (_ & _ & _ & Ha & _).
           apply active_iff_not_skipped in Ha. congruence.
        -- apply active_iff_not_skipped in Hs.
           destruct (Z.eqb_spec (toDateString (eventDate b)) (toDateString d)) as [Hd|Hd]; simpl.
           ++ rewrite negb_true_iff, orb_false_iff. split.
              ** intros [H1 H2]. split; [intros [_ Hx]; congruence|].
                 repeat split; auto. intros [H|H]; congruence.
              ** intros (_ & _ & _ & _ & Ho). split.
                 --- destruct (strle e (startTime b)); auto. exfalso. auto.
                 --- destruct (strge s (endTime b)); auto. exfalso. auto.
           ++ split; [discriminate|]. intros (_ & _ & Hd' & _). contradiction.
      * apply streq_false in Hv. split; [discriminate|].
        intros (_ & Hv' & _). contradiction.
  - destruct (streq (venueId b) v) eqn:Hv; simpl.
    + apply streq_true in Hv.
      destruct (bool_decide (status b = cancelled) || bool_decide (status b = gd_rejected)
                || bool_decide (status b = secretary_rejected)) eqn:Hs.
      * split; [discriminate|]. intros (_ & _ & _ & Ha & _).
        apply active_iff_not_skipped in Ha. congruence.
      * apply active_iff_not_skipped in Hs.
        destruct (Z.eqb_spec (toDateString (eventDate b)) (toDateString d)) as [Hd|Hd]; simpl.
        -- rewrite negb_true_iff, orb_false_iff. split.
           ++ intros [H1 H2]. split; [intros [Hx _]; congruence|].
              repeat split; auto. intros [H|H]; congruence.
           ++ intros (_ & _ & _ & _ & Ho). split.
              ** destruct (strle e (startTime b)); auto. exfalso. auto.
              ** destruct (strge s (endTime b)); auto. exfalso. auto.
        -- split; [discriminate|]. intros (_ & _ & Hd' & _). contradiction.
    + apply streq_false in Hv. split; [discriminate|].
      intros (_ & Hv' & _). contradiction.
Qed.

(** [PersistentStorage.checkVenueAvailability] answers [false] exactly when
    some booking of the store, other than the excluded one, is on the same
    venue and calendar date, is active, and overlaps the requested range
    under the half-open test. *)
Lemma checkVenueAvailability_false_iff st v d s e ex :
  PersistentStorage.checkVenueAvailability st v d s e ex = false <->
  exists b, In b (PersistentStorage.bookings st)
            /\ ~ excluded ex b /\ blocks v d s e b.
Proof.
  unfold PersistentStorage.checkVenueAvailability.
  set (l := List.filter _ _).
  split.
  - intros H. destruct l as [|b t] eqn:E; [discriminate|].
    assert (Hb : In b l) by (rewrite E; left; reflexivity).
    apply List.filter_In in Hb as [Hin Hc]. apply conflicts_iff in Hc.
    exists b. tauto.
  - intros (b & Hin & Hc). 
    assert (Hb : In b l).
    { apply List.filter_In. split; [assumption|]. apply conflicts_iff. assumption. }
    destruct l; [contradiction|reflexivity].
Qed.

Lemma checkVenueAvailability_true_iff st v d s e ex :
  PersistentStorage.checkVenueAvailability st v d s e ex = true <->
  forall b, In b (PersistentStorage.bookings st) ->
            blocks v d s e b -> excluded ex b.
Proof.
  rewrite <- not_false_iff_true, checkVenueAvailability_false_iff. split.
  - intros H b Hin Hb.
    destruct (truthy ex) eqn:Ht.
    + destruct (decide (ex = Some (id b))) as [He|He]; [split; assumption|].
      exfalso. apply H. exists b. split; [assumption|]. split; [|assumption].
      intros [_ Hx]. contradiction.
    + exfalso. apply H. exists b. split; [assumption|]. split; [|assumption].
      intros [Hx _]. congruence.
  - intros H (b & Hin & Hn & Hb). apply Hn. auto.
Qed.

(** No active booking in the store: every request is available. *)
Lemma checkVenueAvailability_no_active st v d s e ex :
  (forall b, In b (PersistentStorage.bookings st) -> ~ In (status b) activeStatuses) ->
  PersistentStorage.checkVenueAvailability st v d s e ex = true.
Proof.
  intros H. apply checkVenueAvailability_true_iff. intros b Hin (_ & _ & Ha & _).
  exfalso. eapply H; eauto.
Qed.

(** Touching boundaries are no overlap. *)
Lemma touching_no_overlap s e b :
  s = endTime b \/ e = startTime b -> ~ overlaps s e b.
Proof.
  unfold overlaps, strge. intros [->| ->] H; apply H.
  - right. apply strle_refl.
  - left. apply strle_refl.
Qed.

(** ** The storage methods, step by step *)

Section StorageRuns.
Import PersistentStorage.
Variable env : Env.
Implicit Types (w : Sys Store) (b : Booking).

Lemma addBookingHistory_run w hd :
  addBookingHistory hd env w =
  (Ok (historyRow env w hd),
   mkSys (setBookingHistory (bookingHistory (heap w) ++ [historyRow env w hd]) (heap w))
         (S (ticks w)) (S (draws w)) (outbox w)).
Proof. reflexivity. Qed.

Lemma createBooking_run w data :
  createBooking data env w =
  (Ok (newBooking env w data),
   mkSys (mkStore (users (heap w)) (venues (heap w))
            (bookings (heap w) ++ [newBooking env w data])
            (bookingHistory (heap w) ++
               [mkBookingHistory (randomId env (S (draws w)))
                  (randomId env (draws w)) submitted
                  (Some "Booking request submitted") (ins_userId data)
                  (dateAt env (S (S (ticks w))))]))
         (S (S (S (ticks w)))) (S (S (draws w))) (outbox w)).
Proof. reflexivity. Qed.

Lemma findIndex_lookup w id0 i :
  findIndex (fun b => streq (id b) id0) (bookings (heap w)) = Some i ->
  exists b, bookings (heap w) !! i = Some b /\ id b = id0.
Proof.
  intros H. apply findIndex_Some in H as (b & Hb & Hid & _).
  exists b. split; [assumption|]. apply streq_true. assumption.
Qed.

Lemma updateBookingStatus_missing w id0 s uid r :
  findIndex (fun b => streq (id b) id0) (bookings (heap w)) = None ->
  updateBookingStatus id0 s uid r env w = (Throw "Booking not found", w).
Proof.
  intros H. unfold updateBookingStatus, bind, gets. rewrite H. reflexivity.
Qed.

Lemma updateBookingStatus_found w id0 s uid r i b :
  findIndex (fun b => streq (id b) id0) (bookings (heap w)) = Some i ->
  bookings (heap w) !! i = Some b ->
  updateBookingStatus id0 s uid r env w =
  (Ok (spreadStatus b s (dateAt env (ticks w)) r),
   mkSys (mkStore (users (heap w)) (venues (heap w))
            (<[i := spreadStatus b s (dateAt env (ticks w)) r]> (bookings (heap w)))
            (bookingHistory (heap w) ++
               [mkBookingHistory (randomId env (draws w)) id0 s
                  (Some (orElse r ("Status updated to " ++ statusName s)))
                  uid (dateAt env (S (ticks w)))]))
         (S (S (ticks w))) (S (draws w)) (outbox w)).
Proof.
  intros Hi Hb. unfold updateBookingStatus, bind, gets. rewrite Hi. simpl.
  unfold bind, gets. simpl. rewrite Hb. reflexivity.
Qed.

Lemma updateBooking_missing w id0 data :
  findIndex (fun b => streq (id b) id0) (bookings (heap w)) = None ->
  updateBooking id0 data env w = (Throw "Booking not found", w).
Proof.
  intros H. unfold updateBooking, bind, gets. rewrite H. reflexivity.
Qed.

Lemma updateBooking_found w id0 data i b :
  findIndex (fun b => streq (id b) id0) (bookings (heap w)) = Some i ->
  bookings (heap w) !! i = Some b ->
  updateBooking id0 data env w =
  (Ok (spreadInsert b data (dateAt env (ticks w))),
   mkSys (mkStore (users (heap w)) (venues (heap w))
            (<[i := spreadInsert b data (dateAt env (ticks w))]> (bookings (heap w)))
            (bookingHistory (heap w)))
         (S (ticks w)) (draws w) (outbox w)).
Proof.
  intros Hi Hb. unfold updateBooking, bind, gets. rewrite Hi. simpl.
  unfold bind, gets. simpl. rewrite Hb. reflexivity.
Qed.
End StorageRuns.

(** ** The route handlers, case by case *)

Lemma find_findIndex {A} (p : A -> bool) (l : list A) (x : A) :
  find p l = Some x -> exists i, findIndex p l = Some i /\ l !! i = Some x.
Proof.
  unfold find. induction l as [|y t IH]; simpl; [discriminate|].
  destruct (p y).
  - intros [= <-]. exists 0%nat. auto.
  - intros H. destruct (IH H) as (i & Hi & Hl). exists (S i).
    rewrite Hi. auto.
Qed.

Lemma findIndex_find {A} (p : A -> bool) (l : list A) :
  findIndex p l = None -> find p l = None.
Proof.
  unfold find. induction l as [|y t IH]; simpl; [reflexivity|].
  destruct (p y); [discriminate|].
  destruct (findIndex p t); [discriminate|]. auto.
Qed.

Lemma findIndex_insert {A} (p : A -> bool) (l : list A) i x x' :
  l !! i = Some x -> p x' = p x ->
  findIndex p (<[i := x']> l) = findIndex p l.
Proof.
  revert i. induction l as [|y t IH]; intros [|i]; simpl; try discriminate.
  - intros [= ->] ->. reflexivity.
  - intros Hl Hp. rewrite (IH i Hl Hp). reflexivity.
Qed.

Section RouteRuns.
Import PersistentStorage Routes.
Variable env : Env.
Implicit Types (w : Sys Store) (b : Booking) (actor : User).

Lemma getBooking_Some w id0 existing :
  getBooking (heap w) id0 = Some existing ->
  exists i, findIndex (byId id0) (bookings (heap w)) = Some i
            /\ bookings (heap w) !! i = Some (bwd_booking existing)
            /\ id (bwd_booking existing) = id0.
Proof.
  unfold getBooking. destruct (find _ _) as [b|] eqn:Hf; [|discriminate].
  destruct (getUser _ _); [|discriminate].
  destruct (getVenue _ _); [|discriminate].
  intros [= <-]. simpl.
  destruct (find_findIndex _ _ _ Hf) as (i & Hi & Hl).
  exists i. repeat split; try assumption.
  apply findIndex_Some in Hi as (x & Hx & Hp & _).
  rewrite Hl in Hx. injection Hx as <-. apply streq_true. assumption.
Qed.

(** *** PATCH /api/bookings/:id/status *)

Lemma patchStatus_denied w actor id0 s r :
  denied actor s = true ->
  patchStatus actor id0 s r env w =
  (Ok (statusJson 403 (Message "Insufficient permissions")), w).
Proof.
  unfold denied, patchStatus, tryCatch. intros ->. reflexivity.
Qed.

Lemma patchStatus_missing w actor id0 s r :
  denied actor s = false ->
  findIndex (byId id0) (bookings (heap w)) = None ->
  patchStatus actor id0 s r env w =
  (Ok (statusJson 500 (Message "Failed to update booking status")), w).
Proof.
  unfold denied, patchStatus, tryCatch. intros -> H. unfold bind at 1.
  rewrite (updateBookingStatus_missing env w id0 s (user_id actor) r H).
  reflexivity.
Qed.

Lemma patchStatus_found w actor id0 s r i b :
  denied actor s = false ->
  findIndex (byId id0) (bookings (heap w)) = Some i ->
  bookings (heap w) !! i = Some b ->
  patchStatus actor id0 s r env w =
  (Ok (json (BookingJson (spreadStatus b s (dateAt env (ticks w)) r))),
   mkSys (mkStore (users (heap w)) (venues (heap w))
            (<[i := spreadStatus b s (dateAt env (ticks w)) r]> (bookings (heap w)))
            (bookingHistory (heap w) ++
               [mkBookingHistory (randomId env (draws w)) id0 s
                  (Some (orElse r ("Status updated to " ++ statusName s)))
                  (user_id actor) (dateAt env (S (ticks w)))]))
         (S (S (S (ticks w)))) (S (draws w))
         (outbox w ++ [mkStatusUpdate id0 s (dateAt env (S (S (ticks w))))])).
Proof.
  unfold denied, patchStatus, tryCatch. intros -> Hi Hb. unfold bind at 1.
  rewrite (updateBookingStatus_found env w id0 s (user_id actor) r i b Hi Hb).
  reflexivity.
Qed.

(** *** POST /api/bookings *)

Lemma postBooking_invalid w actor :
  postBooking actor None env w =
  (Ok (statusJson 400 (Message "Failed to create booking")), w).
Proof. reflexivity. Qed.

Lemma postBooking_conflict w actor f :
  checkVenueAvailability (heap w) (ins_venueId f) (ins_eventDate f)
    (ins_startTime f) (ins_endTime f) None = false ->
  postBooking actor (Some f) env w = (Ok venueNotAvailable, w).
Proof.
  intros H. unfold postBooking, tryCatch, parseBooking, bind, ret, gets.
  cbv beta iota. cbn [heap ins_venueId ins_eventDate ins_startTime ins_endTime].
  rewrite H. reflexivity.
Qed.

Lemma postBooking_created w actor f :
  checkVenueAvailability (heap w) (ins_venueId f) (ins_eventDate f)
    (ins_startTime f) (ins_endTime f) None = true ->
  postBooking actor (Some f) env w =
  (Ok (json (BookingJson (newBooking env w (parsed actor f)))),
   mkSys (mkStore (users (heap w)) (venues (heap w))
            (bookings (heap w) ++ [newBooking env w (parsed actor f)])
            (bookingHistory (heap w) ++
               [mkBookingHistory (randomId env (S (draws w)))
                  (randomId env (draws w)) submitted
                  (Some "Booking request submitted") (user_id actor)
                  (dateAt env (S (S (ticks w))));
                mkBookingHistory (randomId env (S (S (draws w))))
                  (randomId env (draws w)) submitted
                  (Some "Booking request submitted") (user_id actor)
                  (dateAt env (S (S (S (ticks w)))))]))
         (S (S (S (S (S (ticks w)))))) (S (S (S (draws w))))
         (outbox w ++ [mkStatusUpdate (randomId env (draws w)) submitted
                         (dateAt env (S (S (S (S (ticks w))))))])).
Proof.
  intros H. unfold postBooking, tryCatch, parseBooking. unfold bind at 1.
  unfold ret at 1. cbv beta iota. unfold bind at 1. unfold gets at 1.
  cbv beta iota. cbn [heap ins_venueId ins_eventDate ins_startTime ins_endTime].
  rewrite H. cbn [negb]. cbv iota. unfold bind at 1.
  rewrite createBooking_run. cbv beta iota. unfold bind at 1.
  rewrite addBookingHistory_run. cbv beta iota.
  unfold bind, broadcastStatusUpdate, newDate, emit, ret, historyRow, setBookingHistory.
  cbn. rewrite <- app_assoc. reflexivity.
Qed.

(** *** PATCH /api/bookings/:id/cancel *)

Lemma patchCancel_missing w actor id0 :
  getBooking (heap w) id0 = None ->
  patchCancel actor id0 env w =
  (Ok (statusJson 404 (Message "Booking not found")), w).
Proof.
  intros H. unfold patchCancel, tryCatch, bind, gets. rewrite H. reflexivity.
Qed.

Lemma patchCancel_not_owner w actor id0 existing :
  getBooking (heap w) id0 = Some existing ->
  userId (bwd_booking existing) <> user_id actor ->
  patchCancel actor id0 env w =
  (Ok (statusJson 403 (Message "Not authorized to cancel this booking")), w).
Proof.
  intros H Ho. apply streq_false in Ho.
  unfold patchCancel, tryCatch, bind, gets. rewrite H, Ho. reflexivity.
Qed.

Lemma patchCancel_wrong_stage w actor id0 existing :
  getBooking (heap w) id0 = Some existing ->
  userId (bwd_booking existing) = user_id actor ->
  cancellable (status (bwd_booking existing)) = false ->
  patchCancel actor id0 env w =
  (Ok (statusJson 400 (Message "Booking cannot be cancelled at this stage")), w).
Proof.
  intros H Ho Hc. apply streq_true in Ho.
  unfold patchCancel, tryCatch, bind, gets. rewrite H, Ho, Hc. reflexivity.
Qed.

Lemma patchCancel_done w actor id0 existing i :
  getBooking (heap w) id0 = Some existing ->
  findIndex (byId id0) (bookings (heap w)) = Some i ->
  bookings (heap w) !! i = Some (bwd_booking existing) ->
  userId (bwd_booking existing) = user_id actor ->
  cancellable (status (bwd_booking existing)) = true ->
  patchCancel actor id0 env w =
  (Ok (json (Message "Booking cancelled successfully")),
   mkSys (mkStore (users (heap w)) (venues (heap w))
            (<[i := spreadStatus (bwd_booking existing) cancelled
                      (dateAt env (ticks w)) (Some "Booking cancelled by user")]>
               (bookings (heap w)))
            (bookingHistory (heap w) ++
               [mkBookingHistory (randomId env (draws w)) id0 cancelled
                  (Some "Booking cancelled by user") (user_id actor)
                  (dateAt env (S (ticks w)));
                mkBookingHistory (randomId env (S (draws w))) id0 cancelled
                  (Some "Booking cancelled by user") (user_id actor)
                  (dateAt env (S (S (ticks w))))]))
         (S (S (S (S (ticks w))))) (S (S (draws w)))
         (outbox w ++ [mkStatusUpdate id0 cancelled
                         (dateAt env (S (S (S (ticks w)))))])).
Proof.
  intros H Hi Hl Ho Hc. apply streq_true in Ho.
  unfold patchCancel, tryCatch. unfold bind at 1. unfold gets at 1.
  rewrite H, Ho, Hc. simpl. unfold bind at 1.
  rewrite (updateBookingStatus_found env w id0 cancelled (user_id actor) _ i _ Hi Hl).
  simpl. rewrite <- app_assoc. reflexivity.
Qed.

(** *** PATCH /api/bookings/:id *)

Lemma patchBooking_missing w actor id0 body :
  getBooking (heap w) id0 = None ->
  patchBooking actor id0 body env w =
  (Ok (statusJson 404 (Message "Booking not found")), w).
Proof.
  intros H. unfold patchBooking, tryCatch, bind, gets. rewrite H. reflexivity.
Qed.

Lemma patchBooking_not_owner w actor id0 body existing :
  getBooking (heap w) id0 = Some existing ->
  userId (bwd_booking existing) <> user_id actor ->
  patchBooking actor id0 body env w =
  (Ok (statusJson 403 (Message "Not authorized to edit this booking")), w).
Proof.
  intros H Ho. apply streq_false in Ho.
  unfold patchBooking, tryCatch, bind, gets. rewrite H, Ho. reflexivity.
Qed.

Lemma patchBooking_wrong_stage w actor id0 body existing :
  getBooking (heap w) id0 = Some existing ->
  userId (bwd_booking existing) = user_id actor ->
  editable (status (bwd_booking existing)) = false ->
  patchBooking actor id0 body env w =
  (Ok (statusJson 400 (Message "Booking cannot be edited at this stage")), w).
Proof.
  intros H Ho Hc. apply streq_true in Ho.
  unfold patchBooking, tryCatch, bind, gets. rewrite H, Ho, Hc. reflexivity.
Qed.

Lemma patchBooking_invalid w actor id0 existing :
  getBooking (heap w) id0 = Some existing ->
  userId (bwd_booking existing) = user_id actor ->
  editable (status (bwd_booking existing)) = true ->
  patchBooking actor id0 None env w =
  (Ok (statusJson 400 (Message "Failed to update booking")), w).
Proof.
  intros H Ho Hc. apply streq_true in Ho.
  unfold patchBooking, tryCatch, bind, gets. rewrite H, Ho, Hc. reflexivity.
Qed.

Lemma patchBooking_conflict w actor id0 f existing :
  getBooking (heap w) id0 = Some existing ->
  userId (bwd_booking existing) = user_id actor ->
  editable (status (bwd_booking existing)) = true ->
  checkVenueAvailability (heap w) (ins_venueId f) (ins_eventDate f)
    (ins_startTime f) (ins_endTime f) (Some id0) = false ->
  patchBooking actor id0 (Some f) env w = (Ok venueNotAvailable, w).
Proof.
  intros H Ho Hc Ha. apply streq_true in Ho.
  unfold patchBooking, tryCatch, bind, gets. rewrite H, Ho, Hc. simpl.
  rewrite Ha. reflexivity.
Qed.

Lemma patchBooking_done w actor id0 f existing i :
  getBooking (heap w) id0 = Some existing ->
  findIndex (byId id0) (bookings (heap w)) = Some i ->
  bookings (heap w) !! i = Some (bwd_booking existing) ->
  userId (bwd_booking existing) = user_id actor ->
  editable (status (bwd_booking existing)) = true ->
  checkVenueAvailability (heap w) (ins_venueId f) (ins_eventDate f)
    (ins_startTime f) (ins_endTime f) (Some id0) = true ->
  let edited := spreadInsert (bwd_booking existing) (parsed actor f)
                  (dateAt env (ticks w)) in
  patchBooking actor id0 (Some f) env w =
  (Ok (json (BookingJson edited)),
   mkSys (mkStore (users (heap w)) (venues (heap w))
            (<[i := spreadStatus edited submitted (dateAt env (S (S (ticks w))))
                      (Some "Booking updated")]> (bookings (heap w)))
            (bookingHistory (heap w) ++
               [mkBookingHistory (randomId env (draws w)) id0 submitted
                  (Some "Booking updated and resubmitted for approval")
                  (user_id actor) (dateAt env (S (ticks w)));
                mkBookingHistory (randomId env (S (draws w))) id0 submitted
                  (Some "Booking updated") (user_id actor)
                  (dateAt env (S (S (S (ticks w)))))]))
         (S (S (S (S (S (ticks w)))))) (S (S (draws w)))
         (outbox w ++ [mkStatusUpdate id0 submitted
                         (dateAt env (S (S (S (S (ticks w))))))])).
Proof.
  intros H Hi Hl Ho Hc Ha edited. apply streq_true in Ho.
  unfold patchBooking, tryCatch. unfold bind at 1. unfold gets at 1.
  rewrite H, Ho, Hc. simpl. unfold bind at 1. unfold parseBooking, ret at 1.
  unfold bind at 1. unfold gets at 1. simpl. rewrite Ha. simpl.
  unfold bind at 1.
  rewrite (updateBooking_found env w id0 _ i _ Hi Hl).
  unfold bind at 1. rewrite addBookingHistory_run. simpl.
  unfold bind at 1.
  erewrite updateBookingStatus_found; simpl.
  - rewrite list_insert_insert_eq, <- app_assoc. reflexivity.
  - rewrite (findIndex_insert _ _ i (bwd_booking existing) edited Hl); [exact Hi|].
    reflexivity.
  - apply list_lookup_insert_eq. eapply lookup_lt_Some. exact Hl.
Qed.
End RouteRuns.

(** ** The history ledger *)

Section Ledger.
Import PersistentStorage Routes.
Variable env : Env.
Hypothesis clock : clockMonotone env.
Implicit Types (w : Sys Store) (b : Booking).

Lemma rowsOf_app st rows k :
  List.filter (fun h => streq (h_bookingId h) k) (bookingHistory st ++ rows)
  = (rowsOf st k ++ List.filter (fun h => streq (h_bookingId h) k) rows)%list.
Proof. unfold rowsOf. apply List.filter_app. Qed.

Lemma filter_all {A} (p : A -> bool) (l : list A) :
  Forall (fun x => p x = true) l -> List.filter p l = l.
Proof.
  induction 1 as [|x t Hx _ IH]; simpl; [reflexivity|].
  rewrite Hx, IH. reflexivity.
Qed.

Lemma filter_none {A} (p : A -> bool) (l : list A) :
  Forall (fun x => p x = false) l -> List.filter p l = [].
Proof.
  induction 1 as [|x t Hx _ IH]; simpl; [reflexivity|].
  rewrite Hx, IH. reflexivity.
Qed.

Lemma rows_same k rows :
  Forall (fun h => h_bookingId h = k) rows ->
  List.filter (fun h => streq (h_bookingId h) k) rows = rows.
Proof.
  intros H. apply filter_all. eapply Forall_impl; [exact H|].
  simpl. intros h ->. apply streq_refl.
Qed.

Lemma rows_other k k' rows :
  k' <> k ->
  Forall (fun h => h_bookingId h = k) rows ->
  List.filter (fun h => streq (h_bookingId h) k') rows = [].
Proof.
  intros Hk H. apply filter_none. eapply Forall_impl; [exact H|].
  simpl. intros h ->. apply streq_false. congruence.
Qed.

Lemma rowsOf_unowned st k :
  (forall h, In h (bookingHistory st) -> In (h_bookingId h) (List.map id (bookings st))) ->
  ~ In k (List.map id (bookings st)) ->
  rowsOf st k = [].
Proof.
  intros Hown Hk. unfold rowsOf. apply filter_none, List.Forall_forall.
  intros h Hh. apply streq_false. intros E. apply Hk. rewrite <- E. auto.
Qed.

(** The time-related part of the invariant survives the new rows. *)
Lemma timed_sorted w w' rows :
  Inv env w -> timed env w w' rows ->
  ascending h_createdAt (bookingHistory (heap w) ++ rows)%list
  /\ forall h, In h (bookingHistory (heap w) ++ rows)%list ->
               h_createdAt h <= dateAt env (ticks w').
Proof.
  intros HI (Ht & Hs & Hb). rewrite List.Forall_forall in Hb. split.
  - unfold ascending in *. clear Ht.
    pose proof (inv_sorted _ _ HI) as Hsorted.
    pose proof (inv_past _ _ HI) as Hpast.
    induction Hsorted as [|y t Hy IH Hall]; simpl; [assumption|].
    constructor.
    + apply IH. intros h Hh. apply Hpast. right. assumption.
    + apply List.Forall_app. split; [assumption|].
      apply List.Forall_forall. intros h Hh.
      specialize (Hpast y (or_introl eq_refl)).
      destruct (Hb h Hh). lia.
  - intros h Hh. apply List.in_app_or in Hh as [Hh|Hh].
    + pose proof (inv_past _ _ HI h Hh). pose proof (clock _ _ Ht). lia.
    + destruct (Hb h Hh). assumption.
Qed.

Lemma ledgerStep_Inv w w' : Inv env w -> ledgerStep env w w' -> Inv env w'.
Proof.
  intros HI Hstep. destruct Hstep as
    [Hb Hh Ht | nb rows Hb Hfresh Hst Hh Hne Hrows Htimed
     | i b b' rows Hi Hb Hid Hh Hrows Hlast Htimed].
  - (* nothing written *)
    constructor; rewrite ?Hb, ?Hh; try apply HI.
    + intros h Hin. pose proof (inv_past _ _ HI h Hin).
      pose proof (clock _ _ Ht). lia.
    + intros c Hc. unfold rowsOf. rewrite Hh. apply (inv_trail _ _ HI c Hc).
  - (* a booking created *)
    destruct (timed_sorted w w' rows HI Htimed) as [Hs Hp].
    assert (Hkey : Forall (fun h => h_bookingId h = id nb) rows).
    { eapply Forall_impl; [exact Hrows|]. simpl. tauto. }
    constructor; rewrite ?Hb, ?Hh; try assumption.
    + rewrite List.map_app. simpl. apply NoDup_app. split; [apply HI|]. split.
      * intros x Hx Hin. apply list_elem_of_singleton in Hin. subst x.
        apply list_elem_of_In in Hx. contradiction.
      * apply NoDup_singleton.
    + intros h Hin. rewrite List.map_app. apply List.in_or_app.
      apply List.in_app_or in Hin as [Hin|Hin].
      * left. apply (inv_owned _ _ HI h Hin).
      * right. rewrite List.Forall_forall in Hkey. rewrite (Hkey h Hin). left. reflexivity.
    + intros c Hc. unfold rowsOf at 1 2. rewrite Hh, !rowsOf_app.
      apply List.in_app_or in Hc as [Hc|[<-|[]]].
      * assert (Hne' : id c <> id nb).
        { intros E. apply Hfresh. rewrite <- E. apply List.in_map. assumption. }
        rewrite (rows_other (id nb) (id c) rows Hne' Hkey), List.app_nil_r.
        apply (inv_trail _ _ HI c Hc).
      * rewrite (rowsOf_unowned (heap w) (id nb) (inv_owned _ _ HI) Hfresh).
        rewrite (rows_same (id nb) rows Hkey). simpl.
        destruct rows as [|h0 t]; [contradiction|]. split.
        -- simpl. inversion Hrows as [|? ? [_ E] _]; subst. rewrite E. reflexivity.
        -- destruct (last_is_Some (h0 :: t)) as [_ Hl].
           destruct (Hl ltac:(discriminate)) as [z Hz]. rewrite Hz. simpl.
           apply last_Some_elem_of, list_elem_of_In in Hz.
           rewrite List.Forall_forall in Hrows. destruct (Hrows z Hz) as [_ E].
           rewrite E, Hst. reflexivity.
  - (* a booking rewritten in place *)
    destruct (timed_sorted w w' rows HI Htimed) as [Hs Hp].
    assert (Hmap : List.map id (<[i := b']> (bookings (heap w)))
                   = List.map id (bookings (heap w))).
    { change (id <$> <[i := b']> (bookings (heap w)) = id <$> bookings (heap w)).
      rewrite list_fmap_insert. apply list_insert_id.
      rewrite list_lookup_fmap, Hi. simpl. congruence. }
    constructor; rewrite ?Hb, ?Hh, ?Hmap; try assumption; try apply HI.
    + intros h Hin. apply List.in_app_or in Hin as [Hin|Hin].
      * apply (inv_owned _ _ HI h Hin).
      * rewrite List.Forall_forall in Hrows. rewrite (Hrows h Hin).
        apply List.in_map. apply list_elem_of_In.
        eapply list_elem_of_lookup_2. exact Hi.
    + intros c Hc. unfold rowsOf at 1 2. rewrite Hh, !rowsOf_app.
      apply list_elem_of_In, list_elem_of_lookup_1 in Hc as [j Hj].
      assert (Hb_in : In b (bookings (heap w))).
      { apply list_elem_of_In. eapply list_elem_of_lookup_2. exact Hi. }
      destruct (decide (i = j)) as [<-|Hij].
      * rewrite list_lookup_insert_eq in Hj by (eapply lookup_lt_Some; exact Hi).
        injection Hj as <-. rewrite Hid.
        rewrite (rows_same (id b) rows Hrows).
        destruct (inv_trail _ _ HI b Hb_in) as [Hhead _]. split.
        -- rewrite head_app. destruct (head (rowsOf (heap w) (id b))); [assumption|discriminate].
        -- rewrite last_app. destruct (last rows); [assumption|discriminate].
      * rewrite list_lookup_insert_ne in Hj by assumption.
        assert (Hne : id c <> id b).
        { intros E. apply Hij.
          eapply (NoDup_lookup (List.map id (bookings (heap w)))).
          - apply HI.
          - change (List.map id (bookings (heap w))) with (id <$> bookings (heap w)).
            rewrite list_lookup_fmap, Hi. reflexivity.
          - change (List.map id (bookings (heap w))) with (id <$> bookings (heap w)).
            rewrite list_lookup_fmap, Hj. simpl. congruence. }
        rewrite (rows_other (id b) (id c) rows Hne Hrows), List.app_nil_r.
        apply (inv_trail _ _ HI c). apply list_elem_of_In.
        eapply list_elem_of_lookup_2. exact Hj.
Qed.

Ltac clock_goal :=
  unfold timed, ascending; simpl;
  repeat match goal with
         | |- _ /\ _ => split
         | |- (_ <= _)%nat => lia
         | |- StronglySorted _ _ => constructor
         | |- Forall _ _ => constructor
         | |- _ <= _ => apply clock; lia
         end.

(** Every handler is one step of the ledger. *)
Lemma handle_ledgerStep w r :
  admissible env w r -> ledgerStep env w (snd (handle r env w)).
Proof.
  intros Hadm. destruct r as [actor body | actor id0 body | actor id0 | actor id0 s r]; simpl.
  - (* POST /api/bookings *)
    destruct body as [f|]; [|rewrite postBooking_invalid; apply ls_unchanged; auto].
    destruct (checkVenueAvailability (heap w) (ins_venueId f) (ins_eventDate f)
                (ins_startTime f) (ins_endTime f) None) eqn:Ha.
    + rewrite (postBooking_created env w actor f Ha). simpl.
      eapply (ls_created env w _ (newBooking env w (parsed actor f))); simpl;
        try reflexivity.
      * exact Hadm.
      * discriminate.
      * repeat constructor.
      * clock_goal.
    + rewrite (postBooking_conflict env w actor f Ha). apply ls_unchanged; auto.
  - (* PATCH /api/bookings/:id *)
    destruct (getBooking (heap w) id0) as [existing|] eqn:Hg;
      [|rewrite (patchBooking_missing env w actor id0 body Hg); apply ls_unchanged; auto].
    destruct (decide (userId (bwd_booking existing) = user_id actor)) as [Ho|Ho];
      [|rewrite (patchBooking_not_owner env w actor id0 body existing Hg Ho);
        apply ls_unchanged; auto].
    destruct (editable (status (bwd_booking existing))) eqn:He;
      [|rewrite (patchBooking_wrong_stage env w actor id0 body existing Hg Ho He);
        apply ls_unchanged; auto].
    destruct body as [f|];
      [|rewrite (patchBooking_invalid env w actor id0 existing Hg Ho He);
        apply ls_unchanged; auto].
    destruct (checkVenueAvailability (heap w) (ins_venueId f) (ins_eventDate f)
                (ins_startTime f) (ins_endTime f) (Some id0)) eqn:Ha;
      [|rewrite (patchBooking_conflict env w actor id0 f existing Hg Ho He Ha);
        apply ls_unchanged; auto].
    destruct (getBooking_Some w id0 existing Hg) as (i & Hi & Hl & Hid).
    rewrite (patchBooking_done env w actor id0 f existing i Hg Hi Hl Ho He Ha). simpl.
    eapply (ls_moved env w _ i (bwd_booking existing)); simpl;
      try reflexivity; try exact Hl.
    + repeat constructor; simpl; congruence.
    + clock_goal.
  - (* PATCH /api/bookings/:id/cancel *)
    destruct (getBooking (heap w) id0) as [existing|] eqn:Hg;
      [|rewrite (patchCancel_missing env w actor id0 Hg); apply ls_unchanged; auto].
    destruct (decide (userId (bwd_booking existing) = user_id actor)) as [Ho|Ho];
      [|rewrite (patchCancel_not_owner env w actor id0 existing Hg Ho);
        apply ls_unchanged; auto].
    destruct (cancellable (status (bwd_booking existing))) eqn:He;
      [|rewrite (patchCancel_wrong_stage env w actor id0 existing Hg Ho He);
        apply ls_unchanged; auto].
    destruct (getBooking_Some w id0 existing Hg) as (i & Hi & Hl & Hid).
    rewrite (patchCancel_done env w actor id0 existing i Hg Hi Hl Ho He). simpl.
    eapply (ls_moved env w _ i (bwd_booking existing)); simpl;
      try reflexivity; try exact Hl.
    + repeat constructor; simpl; congruence.
    + clock_goal.
  - (* PATCH /api/bookings/:id/status *)
    destruct (denied actor s) eqn:Hd;
      [rewrite (patchStatus_denied env w actor id0 s r Hd); apply ls_unchanged; auto|].
    destruct (findIndex (byId id0) (bookings (heap w))) as [i|] eqn:Hi;
      [|rewrite (patchStatus_missing env w actor id0 s r Hd Hi); apply ls_unchanged; auto].
    destruct (findIndex_lookup w id0 i Hi) as (b & Hl & Hid).
    rewrite (patchStatus_found env w actor id0 s r i b Hd Hi Hl). simpl.
    eapply (ls_moved env w _ i b); simpl; try reflexivity; try exact Hl.
    + repeat constructor; simpl; congruence.
    + clock_goal.
Qed.

Lemma reachable_Inv w : reachable env w -> Inv env w.
Proof.
  induction 1 as [us vs t d out | w r _ IH Hadm | w us vs _ IH].
  - constructor; simpl; try (intros ? []); constructor.
  - apply (ledgerStep_Inv w _ IH). apply handle_ledgerStep. assumption.
  - destruct IH as [H1 H2 H3 H4 H5]. constructor; simpl; assumption.
Qed.

(** The chronological listing is the insertion order of the rows. *)
Lemma getBookingHistory_rowsOf w k :
  Inv env w -> getBookingHistory (heap w) k = rowsOf (heap w) k.
Proof.
  intros HI. unfold getBookingHistory. apply sortAsc_id.
  apply ascending_filter. exact (inv_sorted _ _ HI).
Qed.

Lemma Inv_ledgerOk w : Inv env w -> ledgerOk (heap w).
Proof.
  intros HI b Hb. simpl. rewrite (getBookingHistory_rowsOf w (id b) HI).
  destruct (inv_trail _ _ HI b Hb) as [Hh Hl]. repeat split; try assumption.
  intros E. rewrite E in Hh. discriminate.
Qed.
End Ledger.

(** ** The claims *)

Section Claims.
Import PersistentStorage Routes.

(** *** Availability (C1) *)

(** On the file-backed storage the check is the claim, for every store
    and request: unavailable exactly when a booking other than the
    excluded one blocks the request; available when no booking is active;
    a booking that only touches the requested range never blocks. *)
Theorem persistent_checkVenueAvailability_spec st v d s e ex :
  (checkVenueAvailability st v d s e ex = false <->
     exists b, In b (bookings st) /\ ~ excluded ex b /\ blocks v d s e b)
  /\ ((forall b, In b (bookings st) -> ~ In (status b) activeStatuses) ->
      checkVenueAvailability st v d s e ex = true)
  /\ ((forall b, In b (bookings st) -> s = endTime b \/ e = startTime b) ->
      checkVenueAvailability st v d s e ex = true).
Proof.
  split; [apply checkVenueAvailability_false_iff|].
  split; [apply checkVenueAvailability_no_active|].
  intros H. apply checkVenueAvailability_true_iff.
  intros b Hin (_ & _ & _ & Ho). exfalso.
  exact (touching_no_overlap s e b (H b Hin) Ho).
Qed.

(** An excluded id that is supplied and not empty excludes exactly the
    booking with that id. *)
Lemma excluded_supplied x b : x <> "" -> (excluded (Some x) b <-> id b = x).
Proof.
  intros Hx. unfold excluded. rewrite truthy_Some_nonempty. split.
  - intros [_ [= ->]]. reflexivity.
  - intros <-. auto.
Qed.

Lemma excluded_absent b : ~ excluded None b.
Proof. intros [H _]. discriminate. Qed.

(** The scenario of the specification on the file-backed storage: the hall
    is booked on 2024-03-01 from 10:00 to 12:00; 11:00 to 13:00 that day is
    not available, 12:00 to 13:00 is, and so is 10:00 to 12:00 the next
    day. *)
Example persistent_availability_scenario :
  checkVenueAvailability (heap Demo.stored) "v1" Demo.march1 "11:00" "13:00" None = false
  /\ checkVenueAvailability (heap Demo.stored) "v1" Demo.march1 "12:00" "13:00" None = true
  /\ checkVenueAvailability (heap Demo.stored) "v1" Demo.march2 "10:00" "12:00" None = true
  /\ checkVenueAvailability (heap Demo.stored) "v1" Demo.march1 "10:00" "12:00" (Some "a") = true.
Proof. repeat split; vm_compute; reflexivity. Qed.

(** In the database storage an active booking blocks the request that
    starts when it ends. *)
Lemma database_touching_blocks db v d s e b :
  In b (DatabaseStorage.bookings db) ->
  venueId b = v -> eventDate b = d -> In (status b) activeStatuses ->
  strle (startTime b) (endTime b) = true -> s = endTime b ->
  DatabaseStorage.checkVenueAvailability db v d s e None = false.
Proof.
  intros Hin Hv Hd Ha Hle ->. unfold DatabaseStorage.checkVenueAvailability.
  cbn [truthy]. set (l := List.filter _ _).
  assert (Hb : In b l).
  { apply List.filter_In. split; [assumption|].
    rewrite !andb_true_iff. repeat split.
    - apply streq_true. assumption.
    - apply Z.eqb_eq. assumption.
    - unfold DatabaseStorage.timeClause, DatabaseStorage.lte, DatabaseStorage.gte, strge.
      rewrite Hle, strle_refl. reflexivity.
    - unfold DatabaseStorage.statusClause. unfold activeStatuses in Ha. simpl in Ha.
      destruct (status b); simpl; try reflexivity; exfalso; intuition discriminate. }
  destruct l; [contradiction|reflexivity].
Qed.

(** C1. The database storage answers differently. With the hall booked on
    2024-03-01 from 10:00 to 12:00, a request for 12:00 to 13:00 that day
    only touches the booking: the file-backed check says available, the
    database check says not available. A request for 11:00 to 13:00 that
    carries another time of day in its date overlaps the booking: the
    file-backed check says not available, the database check, which
    compares whole timestamps, says available. *)
Example database_checkVenueAvailability_diverges :
  bookings (heap Demo.stored) = DatabaseStorage.bookings (heap Demo.tables)
  /\ checkVenueAvailability (heap Demo.stored)
       "v1" Demo.march1 "12:00" "13:00" None = true
  /\ DatabaseStorage.checkVenueAvailability (heap Demo.tables)
       "v1" Demo.march1 "12:00" "13:00" None = false
  /\ checkVenueAvailability (heap Demo.stored)
       "v1" (Demo.march1 + 3600000) "11:00" "13:00" None = false
  /\ DatabaseStorage.checkVenueAvailability (heap Demo.tables)
       "v1" (Demo.march1 + 3600000) "11:00" "13:00" None = true.
Proof. repeat split; vm_compute; reflexivity. Qed.

(** *** Authorization of status changes (C2, C10) *)

Lemma denied_iff actor s :
  denied actor s = true <->
  exists r, requiredRole s = Some r /\ user_role actor <> r.
Proof.
  unfold denied. destruct s; simpl; split;
    try discriminate; try (intros (r & [=] & _); fail);
    destruct (user_role actor); simpl; try discriminate;
    try (intros (r & [= <-] & H); congruence);
    intros _; eexists; split; try reflexivity; discriminate.
Qed.

(** The five stage statuses are gated by role: a request from any other
    role is answered 403 and writes nothing, whatever the booking. *)
Lemma patchStatus_role_gate env w actor id0 s r role :
  requiredRole s = Some role -> user_role actor <> role ->
  patchStatus actor id0 s r env w =
  (Ok (statusJson 403 (Message "Insufficient permissions")), w).
Proof.
  intros Hr Hne. apply patchStatus_denied. apply denied_iff. eauto.
Qed.

Lemma secretary_cannot_gd_approve env w actor id0 r :
  user_role actor = secretary ->
  patchStatus actor id0 gd_approved r env w =
  (Ok (statusJson 403 (Message "Insufficient permissions")), w).
Proof.
  intros H. apply (patchStatus_role_gate env w actor id0 gd_approved r group_director).
  - reflexivity.
  - rewrite H. discriminate.
Qed.

(** C2. The status route does not ask who owns the booking when the target
    is [cancelled]: bob, who has the role [user] and does not own alice's
    booking, cancels it and is answered 200; the cancel route answers the
    same actor 403 and writes nothing. *)
Example status_route_lets_non_owner_cancel :
  (exists b, bookings (heap Demo.booked) = [b] /\ id b = "a"
             /\ userId b = user_id Demo.alice /\ status b = submitted)
  /\ user_id Demo.bob <> user_id Demo.alice
  /\ (exists b', Routes.patchStatus Demo.bob "a" cancelled None Demo.env Demo.booked
                 = (Ok (json (BookingJson b')),
                    snd (Routes.patchStatus Demo.bob "a" cancelled None
                           Demo.env Demo.booked))
                 /\ status b' = cancelled
                 /\ bookings (heap (snd (Routes.patchStatus Demo.bob "a"
                                           cancelled None Demo.env Demo.booked)))
                    = [b'])
  /\ Routes.patchCancel Demo.bob "a" Demo.env Demo.booked
     = (Ok (statusJson 403 (Message "Not authorized to cancel this booking")),
        Demo.booked).
Proof.
  split; [eexists; vm_compute; repeat split; reflexivity|].
  split; [discriminate|].
  split; [eexists; vm_compute; repeat split; reflexivity|].
  vm_compute. reflexivity.
Qed.



(** *** The ledger invariant (C3) *)

(** C3. With a clock that never runs backwards and booking ids that are
    new when drawn, every state the server reaches from an empty store
    satisfies the ledger property: for every booking the chronological
    history is not empty, starts with [submitted] and ends with the
    booking's current status; and the state after any further creation,
    edit, cancellation or status change satisfies it again. *)
Theorem history_ledger_invariant env w :
  clockMonotone env -> reachable env w ->
  ledgerOk (heap w)
  /\ forall r, admissible env w r -> ledgerOk (heap (snd (handle r env w))).
Proof.
  intros Hclock Hreach. split.
  - apply (Inv_ledgerOk env), (reachable_Inv env Hclock), Hreach.
  - intros r Hadm. apply (Inv_ledgerOk env), (reachable_Inv env Hclock).
    apply reach_request; assumption.
Qed.

Lemma demo_clockMonotone : clockMonotone Demo.env.
Proof. intros n m H. simpl. lia. Defined.

Lemma demo_reachable : reachable Demo.env Demo.approved.
Proof.
  unfold Demo.approved. apply reach_request; [|exact I].
  unfold Demo.booked. apply reach_request; [apply reach_init|].
  intros [].
Defined.

Lemma history_ledger_invariant_witness :
  clockMonotone Demo.env /\ reachable Demo.env Demo.approved
  /\ ledgerOk (heap Demo.approved).
Proof.
  split; [exact demo_clockMonotone|]. split; [exact demo_reachable|].
  exact (proj1 (history_ledger_invariant Demo.env Demo.approved
                  demo_clockMonotone demo_reachable)).
Defined.

(** *** Status updates in the storage (C4) *)

(** On the file-backed storage [updateBookingStatus] is the claim: the
    stage fields of the target status are stamped with the current time
    and the remarks, no stage field is touched for [submitted],
    [cancelled] and [completed], and one history row is appended with the
    status, the remarks or the default message, the actor and a time. *)
Theorem persistent_updateBookingStatus_spec env w id0 s uid r i old :
  findIndex (byId id0) (bookings (heap w)) = Some i ->
  bookings (heap w) !! i = Some old ->
  let now := dateAt env (ticks w) in
  let result := updateBookingStatus id0 s uid r env w in
  exists b',
    fst result = Ok b'
    /\ bookings (heap (snd result)) = <[i := b']> (bookings (heap w))
    /\ status b' = s /\ updatedAt b' = Some now
    /\ (In s [gd_approved; gd_rejected] ->
        gdApprovalDate b' = Some now /\ gdRemarks b' = r
        /\ secretaryApprovalDate b' = secretaryApprovalDate old
        /\ secretaryRemarks b' = secretaryRemarks old
        /\ itSetupDate b' = itSetupDate old /\ itRemarks b' = itRemarks old)
    /\ (In s [secretary_approved; secretary_rejected] ->
        secretaryApprovalDate b' = Some now /\ secretaryRemarks b' = r
        /\ gdApprovalDate b' = gdApprovalDate old /\ gdRemarks b' = gdRemarks old
        /\ itSetupDate b' = itSetupDate old /\ itRemarks b' = itRemarks old)
    /\ (s = it_setup_complete ->
        itSetupDate b' = Some now /\ itRemarks b' = r
        /\ gdApprovalDate b' = gdApprovalDate old /\ gdRemarks b' = gdRemarks old
        /\ secretaryApprovalDate b' = secretaryApprovalDate old
        /\ secretaryRemarks b' = secretaryRemarks old)
    /\ (In s [submitted; cancelled; completed] ->
        gdApprovalDate b' = gdApprovalDate old /\ gdRemarks b' = gdRemarks old
        /\ secretaryApprovalDate b' = secretaryApprovalDate old
        /\ secretaryRemarks b' = secretaryRemarks old
        /\ itSetupDate b' = itSetupDate old /\ itRemarks b' = itRemarks old)
    /\ bookingHistory (heap (snd result)) =
       (bookingHistory (heap w) ++
        [mkBookingHistory (randomId env (draws w)) id0 s
           (Some (match r with
                  | Some x => if decide (x = "") then defaultRemarks s else x
                  | None => defaultRemarks s
                  end))
           uid (dateAt env (S (ticks w)))])%list.
Proof.
  intros Hi Hl now result. subst result.
  rewrite (updateBookingStatus_found env w id0 s uid r i old Hi Hl).
  eexists. split; [reflexivity|]. simpl.
  split; [reflexivity|]. split; [reflexivity|]. split; [reflexivity|].
  split; [|split; [|split; [|split]]].
  - intros [<-|[<-|[]]]; repeat split.
  - intros [<-|[<-|[]]]; repeat split.
  - intros ->; repeat split.
  - intros [<-|[<-|[<-|[]]]]; repeat split.
  - destruct r as [[|c x]|]; reflexivity.
Qed.

(** C4. The database storage writes the remarks as they come: a secretary's
    approval without remarks appends a history row whose remarks are
    absent, where the file-backed storage writes the default message. *)
Example database_updateBookingStatus_no_default_remarks :
  bookings (heap Demo.stored) = DatabaseStorage.bookings (heap Demo.tables)
  /\ (exists h, bookingHistory
                  (heap (snd (updateBookingStatus "a" secretary_approved "s1" None
                                Demo.env Demo.stored)))
                = (bookingHistory (heap Demo.stored) ++ [h])%list
                /\ h_status h = secretary_approved
                /\ h_remarks h = Some "Status updated to secretary_approved")
  /\ (exists h, DatabaseStorage.bookingHistory
                  (heap (snd (DatabaseStorage.updateBookingStatus "a"
                                secretary_approved "s1" None Demo.env Demo.tables)))
                = (DatabaseStorage.bookingHistory (heap Demo.tables) ++ [h])%list
                /\ h_status h = secretary_approved
                /\ h_remarks h = None).
Proof.
  split; [reflexivity|].
  split; eexists; vm_compute; repeat split; reflexivity.
Qed.

(** *** Editing (C5) *)

(** Who may edit, and when: a stored booking is edited by its owner only
    (403 otherwise) and in an editable status only (400 otherwise);
    neither refusal writes anything. *)
Lemma patchBooking_gates env w actor id0 body existing :
  getBooking (heap w) id0 = Some existing ->
  (userId (bwd_booking existing) <> user_id actor ->
   patchBooking actor id0 body env w =
   (Ok (statusJson 403 (Message "Not authorized to edit this booking")), w))
  /\ (userId (bwd_booking existing) = user_id actor ->
      ~ In (status (bwd_booking existing)) [submitted; gd_rejected; secretary_rejected] ->
      patchBooking actor id0 body env w =
      (Ok (statusJson 400 (Message "Booking cannot be edited at this stage")), w)).
Proof.
  intros Hg. split.
  - apply patchBooking_not_owner. assumption.
  - intros Ho Hs. apply (patchBooking_wrong_stage env w actor id0 body existing Hg Ho).
    destruct (status (bwd_booking existing)); simpl in *; tauto.
Qed.

(** A successful edit overwrites the fields of the form, resets the status
    to [submitted] and appends two history rows. *)
Lemma patchBooking_appends_two_rows env w actor id0 f existing :
  getBooking (heap w) id0 = Some existing ->
  userId (bwd_booking existing) = user_id actor ->
  editable (status (bwd_booking existing)) = true ->
  checkVenueAvailability (heap w) (ins_venueId f) (ins_eventDate f)
    (ins_startTime f) (ins_endTime f) (Some id0) = true ->
  let w' := snd (patchBooking actor id0 (Some f) env w) in
  exists i b' r1 r2,
    bookings (heap w) !! i = Some (bwd_booking existing)
    /\ bookings (heap w') = <[i := b']> (bookings (heap w))
    /\ status b' = submitted
    /\ (venueId b', eventDate b', startTime b', endTime b')
       = (ins_venueId f, ins_eventDate f, ins_startTime f, ins_endTime f)
    /\ (eventTitle b', meetingType b', expectedAttendees b', department b')
       = (ins_eventTitle f, ins_meetingType f, ins_expectedAttendees f,
          ins_department f)
    /\ bookingHistory (heap w') = (bookingHistory (heap w) ++ [r1; r2])%list
    /\ h_bookingId r1 = id0 /\ h_bookingId r2 = id0
    /\ h_status r1 = submitted /\ h_status r2 = submitted.
Proof.
  intros Hg Ho He Ha w'. subst w'.
  destruct (getBooking_Some w id0 existing Hg) as (i & Hi & Hl & Hid).
  rewrite (patchBooking_done env w actor id0 f existing i Hg Hi Hl Ho He Ha).
  simpl. exists i. do 3 eexists. split; [exact Hl|].
  split; [reflexivity|]. repeat split.
Qed.

(** C5. alice edits her [submitted] booking to a free slot, 14:00 to
    15:00: the edit succeeds, the slot is overwritten, the status is
    [submitted], and the ledger has grown by two rows, not one. *)
Example edit_appends_two_rows :
  let w' := snd (patchBooking Demo.alice "a" (Some (Demo.form "14:00" "15:00"))
                   Demo.env Demo.booked) in
  (exists b, bookings (heap Demo.booked) = [b] /\ status b = submitted)
  /\ checkVenueAvailability (heap Demo.booked) "v1" Demo.march1
       "14:00" "15:00" (Some "a") = true
  /\ (exists b, fst (patchBooking Demo.alice "a" (Some (Demo.form "14:00" "15:00"))
                       Demo.env Demo.booked) = Ok (json (BookingJson b)))
  /\ (exists b', bookings (heap w') = [b'] /\ status b' = submitted
                 /\ startTime b' = "14:00" /\ endTime b' = "15:00")
  /\ List.length (bookingHistory (heap w'))
     = (List.length (bookingHistory (heap Demo.booked)) + 2)%nat
  /\ List.length (getBookingHistory (heap w') "a")
     = (List.length (getBookingHistory (heap Demo.booked) "a") + 2)%nat.
Proof.
  cbv zeta. split; [eexists; vm_compute; split; reflexivity|].
  split; [vm_compute; reflexivity|].
  split; [eexists; vm_compute; reflexivity|].
  split; [eexists; vm_compute; repeat split; reflexivity|].
  split; vm_compute; reflexivity.
Qed.

(** *** Conflicts (C6) *)

Lemma blocked_unavailable st f b ex :
  In b (bookings st) ->
  blocks (ins_venueId f) (ins_eventDate f) (ins_startTime f) (ins_endTime f) b ->
  ex <> Some (id b) ->
  checkVenueAvailability st (ins_venueId f) (ins_eventDate f)
    (ins_startTime f) (ins_endTime f) ex = false.
Proof.
  intros Hin Hb Hex. apply checkVenueAvailability_false_iff.
  exists b. repeat split; try apply Hb; try assumption.
  intros [_ E]. contradiction.
Qed.

(** C6. A creation request whose slot is blocked by a stored booking is
    answered 400 "Venue not available for the selected time slot" and
    leaves the whole system state as it was. So is an edit, by the owner
    and in an editable status, whose slot is blocked by another booking.
    An edit with such a slot never writes, whichever refusal it gets. *)
Theorem conflict_rejected_without_mutation env w actor f b :
  In b (bookings (heap w)) ->
  blocks (ins_venueId f) (ins_eventDate f) (ins_startTime f) (ins_endTime f) b ->
  postBooking actor (Some f) env w = (Ok venueNotAvailable, w)
  /\ (forall id0 existing,
        id b <> id0 ->
        getBooking (heap w) id0 = Some existing ->
        userId (bwd_booking existing) = user_id actor ->
        In (status (bwd_booking existing)) [submitted; gd_rejected; secretary_rejected] ->
        patchBooking actor id0 (Some f) env w = (Ok venueNotAvailable, w))
  /\ (forall id0,
        id b <> id0 ->
        exists response,
          patchBooking actor id0 (Some f) env w = (Ok response, w)
          /\ 400 <= statusCode response).
Proof.
  intros Hin Hb.
  assert (Hedit : forall id0, id b <> id0 ->
            checkVenueAvailability (heap w) (ins_venueId f) (ins_eventDate f)
              (ins_startTime f) (ins_endTime f) (Some id0) = false).
  { intros id0 Hne. apply (blocked_unavailable (heap w) f b); try assumption.
    congruence. }
  split; [|split].
  - apply postBooking_conflict.
    apply (blocked_unavailable (heap w) f b); try assumption. discriminate.
  - intros id0 existing Hne Hg Ho Hs.
    apply (patchBooking_conflict env w actor id0 f existing Hg Ho); [|auto].
    destruct (status (bwd_booking existing)); simpl in Hs; try reflexivity;
      exfalso; intuition discriminate.
  - intros id0 Hne.
    destruct (getBooking (heap w) id0) as [existing|] eqn:Hg.
    + destruct (decide (userId (bwd_booking existing) = user_id actor)) as [Ho|Ho].
      * destruct (editable (status (bwd_booking existing))) eqn:He.
        -- eexists. split.
           ++ apply (patchBooking_conflict env w actor id0 f existing Hg Ho He). auto.
           ++ simpl. lia.
        -- eexists. split.
           ++ apply (patchBooking_wrong_stage env w actor id0 _ existing Hg Ho He).
           ++ simpl. lia.
      * eexists. split.
        -- apply (patchBooking_not_owner env w actor id0 _ existing Hg Ho).
        -- simpl. lia.
    + eexists. split.
      * apply (patchBooking_missing env w actor id0 _ Hg).
      * simpl. lia.
Qed.

Lemma conflict_rejected_without_mutation_witness :
  In Demo.row (bookings (heap Demo.stored))
  /\ blocks "v1" Demo.march1 "11:00" "13:00" Demo.row
  /\ postBooking Demo.bob (Some (Demo.form "11:00" "13:00")) Demo.env Demo.stored
     = (Ok venueNotAvailable, Demo.stored)
  /\ patchBooking Demo.bob "b" (Some (Demo.form "11:00" "13:00")) Demo.env Demo.stored
     = (Ok venueNotAvailable, Demo.stored).
Proof.
  assert (H1 : In Demo.row (bookings (heap Demo.stored))) by (left; reflexivity).
  assert (H2 : blocks "v1" Demo.march1 "11:00" "13:00" Demo.row).
  { repeat split.
    - right. left. reflexivity.
    - intros [H|H]; vm_compute in H; discriminate H. }
  destruct (conflict_rejected_without_mutation Demo.env Demo.stored Demo.bob
              (Demo.form "11:00" "13:00") Demo.row H1 H2) as (Hc & He & _).
  split; [exact H1|]. split; [exact H2|]. split; [exact Hc|].
  apply (He "b" (mkBookingWithDetails Demo.row2 Demo.bob Demo.hall)).
  - discriminate.
  - vm_compute. reflexivity.
  - reflexivity.
  - left. reflexivity.
Defined.

(** *** Creation (C7) *)

(** [createBooking] alone writes the booking with status [submitted] and
    one history row. *)
Lemma createBooking_writes_one_row env w data :
  let result := createBooking data env w in
  exists b r1,
    fst result = Ok b /\ status b = submitted
    /\ bookings (heap (snd result)) = (bookings (heap w) ++ [b])%list
    /\ bookingHistory (heap (snd result)) = (bookingHistory (heap w) ++ [r1])%list
    /\ h_bookingId r1 = id b /\ h_status r1 = submitted.
Proof.
  cbv zeta. rewrite createBooking_run. do 2 eexists. cbn [fst snd heap bookings bookingHistory].
  repeat split.
Qed.

(** The creation route adds a second row: a booking created through it
    has status [submitted] and two history rows, both [submitted]. *)
Lemma postBooking_writes_two_rows env w actor f :
  clockMonotone env -> reachable env w -> freshId env w ->
  checkVenueAvailability (heap w) (ins_venueId f) (ins_eventDate f)
    (ins_startTime f) (ins_endTime f) None = true ->
  let result := postBooking actor (Some f) env w in
  exists b r1 r2,
    fst result = Ok (json (BookingJson b)) /\ status b = submitted
    /\ bookings (heap (snd result)) = (bookings (heap w) ++ [b])%list
    /\ getBookingHistory (heap (snd result)) (id b) = [r1; r2]
    /\ h_status r1 = submitted /\ h_status r2 = submitted.
Proof.
  intros Hclock Hreach Hfresh Ha. cbv zeta.
  assert (HI : Inv env (snd (postBooking actor (Some f) env w))).
  { apply (reachable_Inv env Hclock).
    apply (reach_request env w (PostBooking actor (Some f))); assumption. }
  pose proof (reachable_Inv env Hclock w Hreach) as HIw.
  rewrite (postBooking_created env w actor f Ha) in *.
  match goal with
  | H : Inv env (snd (_, ?s)) |- _ => set (w' := s) in *
  end.
  cbn [fst snd] in *.
  exists (newBooking env w (parsed actor f)). do 2 eexists.
  split; [reflexivity|]. split; [reflexivity|]. split; [reflexivity|].
  rewrite (getBookingHistory_rowsOf env w' _ HI).
  unfold rowsOf, w'. cbn [heap bookingHistory]. rewrite List.filter_app.
  fold (rowsOf (heap w) (id (newBooking env w (parsed actor f)))).
  rewrite (rowsOf_unowned (heap w) (id (newBooking env w (parsed actor f)))
             (inv_owned _ _ HIw) Hfresh).
  cbn [List.filter h_bookingId id newBooking app]. rewrite streq_refl.
  repeat split.
Qed.

(** C7. alice's booking request on the empty store succeeds: the booking
    is stored with status [submitted], and its history lists two rows, not
    one. [createBooking] wrote one and the route wrote it again. *)
Example creation_appends_two_rows :
  (exists b, fst (postBooking Demo.alice (Some (Demo.form "10:00" "12:00"))
                    Demo.env Demo.start) = Ok (json (BookingJson b))
             /\ bookings (heap Demo.booked) = [b]
             /\ id b = "a" /\ status b = submitted)
  /\ List.length (getBookingHistory (heap Demo.booked) "a") = 2%nat
  /\ Forall (fun h => h_status h = submitted
                      /\ h_remarks h = Some "Booking request submitted")
       (getBookingHistory (heap Demo.booked) "a").
Proof.
  split; [eexists; vm_compute; repeat split; reflexivity|].
  split; [vm_compute; reflexivity|].
  vm_compute. repeat constructor.
Qed.

(** *** Listing the history (C8) *)

(** On the file-backed storage the listing is the claim: the rows of the
    booking, each as often as it is stored, oldest first. *)
Theorem persistent_getBookingHistory_spec st k :
  (forall h, In h (getBookingHistory st k) <->
             In h (bookingHistory st) /\ h_bookingId h = k)
  /\ getBookingHistory st k ≡ₚ rowsOf st k
  /\ ascending h_createdAt (getBookingHistory st k).
Proof.
  assert (Hperm : getBookingHistory st k ≡ₚ rowsOf st k) by apply sortAsc_perm.
  split; [|split; [exact Hperm|apply sortAsc_ascending]].
  intros h. rewrite <- !list_elem_of_In, Hperm, list_elem_of_In.
  unfold rowsOf. rewrite List.filter_In, streq_true, <- list_elem_of_In. reflexivity.
Qed.

Lemma database_getBookingHistory_descending db k :
  descending h_createdAt (DatabaseStorage.getBookingHistory db k).
Proof. apply sortDesc_descending. Qed.

(** C8. The database storage lists the history newest first: for the
    booking with rows of 1709270000000 ([submitted]) and 1709273600000
    ([gd_approved]) it returns the [gd_approved] row before the
    [submitted] row, where the file-backed storage returns them oldest
    first. *)
Example database_getBookingHistory_newest_first :
  bookingHistory (heap Demo.stored) = DatabaseStorage.bookingHistory (heap Demo.tables)
  /\ List.map (fun h => (h_status h, h_createdAt h))
       (getBookingHistory (heap Demo.stored) "a")
     = [(submitted, 1709270000000); (gd_approved, 1709273600000)]
  /\ List.map (fun h => (h_status h, h_createdAt h))
       (DatabaseStorage.getBookingHistory (heap Demo.tables) "a")
     = [(gd_approved, 1709273600000); (submitted, 1709270000000)]
  /\ ~ ascending h_createdAt (DatabaseStorage.getBookingHistory (heap Demo.tables) "a").
Proof.
  split; [reflexivity|]. split; [vm_compute; reflexivity|].
  split; [vm_compute; reflexivity|].
  intros H. vm_compute in H. inversion H as [|? ? _ Hall]; subst.
  inversion Hall as [|? ? Hle _]; subst. vm_compute in Hle. apply Hle. reflexivity.
Qed.

(** *** Unknown booking ids (C9) *)

(** A status request for an id the store does not hold writes nothing and
    is answered 403 when the gate denies it and 500 otherwise. *)
Lemma patchStatus_unknown_id env w actor id0 s r :
  findIndex (byId id0) (bookings (heap w)) = None ->
  patchStatus actor id0 s r env w =
  (Ok (if denied actor s
       then statusJson 403 (Message "Insufficient permissions")
       else statusJson 500 (Message "Failed to update booking status")), w).
Proof.
  intros H. destruct (denied actor s) eqn:Hd.
  - apply patchStatus_denied. assumption.
  - apply patchStatus_missing; assumption.
Qed.

(** C9. The status route has no 404: a request to mark the unknown
    booking ["zzz"] [completed] finds [updateBookingStatus] throwing
    "Booking not found", and the handler's catch answers 500 "Failed to
    update booking status". Nothing is written. The cancel route answers
    404 for the same id. *)
Example status_route_unknown_id_is_500 :
  findIndex (byId "zzz") (bookings (heap Demo.stored)) = None
  /\ updateBookingStatus "zzz" completed "d1" None Demo.env Demo.stored
     = (Throw "Booking not found", Demo.stored)
  /\ patchStatus Demo.director "zzz" completed None Demo.env Demo.stored
     = (Ok (statusJson 500 (Message "Failed to update booking status")), Demo.stored)
  /\ patchCancel Demo.director "zzz" Demo.env Demo.stored
     = (Ok (statusJson 404 (Message "Booking not found")), Demo.stored).
Proof. repeat split; vm_compute; reflexivity. Qed.
End Claims.

(** ** Further properties of the handlers *)

Section Handlers.
Import PersistentStorage Routes.
Variable env : Env.
Implicit Types (w : Sys Store) (b : Booking) (actor : User).

Lemma stamped_spreadStatus b s now r :
  is_Some (createdAt b) -> stamped (spreadStatus b s now r).
Proof.
  intros Hc. unfold stamped. simpl. split; [assumption|]. split; [eauto|].
  destruct s; simpl; repeat split; intros H; eauto;
    exfalso; intuition discriminate.
Qed.

Lemma handle_Effect w r : Effect env w r.
Proof.
  destruct r as [actor body | actor id0 body | actor id0 | actor id0 s r].
  - (* POST /api/bookings *)
    destruct body as [f|].
    { destruct (checkVenueAvailability (heap w) (ins_venueId f) (ins_eventDate f)
                  (ins_startTime f) (ins_endTime f) None) eqn:Ha.
      - eapply (eff_created env w _ (newBooking env w (parsed actor f))); unfold handle;
          rewrite ?(postBooking_created env w actor f Ha); simpl; try reflexivity.
        * unfold stamped. simpl. repeat split; eauto; intros H; exfalso; intuition discriminate.
        * auto.
      - eapply eff_refused; unfold handle.
        + apply (postBooking_conflict env w actor f Ha).
        + simpl. lia. }
    eapply eff_refused; unfold handle; [apply postBooking_invalid|simpl; lia].
  - (* PATCH /api/bookings/:id *)
    destruct (getBooking (heap w) id0) as [existing|] eqn:Hg;
      [|eapply eff_refused; unfold handle;
        [apply (patchBooking_missing env w actor id0 body Hg)|simpl; lia]].
    destruct (decide (userId (bwd_booking existing) = user_id actor)) as [Ho|Ho];
      [|eapply eff_refused; unfold handle;
        [apply (patchBooking_not_owner env w actor id0 body existing Hg Ho)|simpl; lia]].
    destruct (editable (status (bwd_booking existing))) eqn:He;
      [|eapply eff_refused; unfold handle;
        [apply (patchBooking_wrong_stage env w actor id0 body existing Hg Ho He)
        |simpl; lia]].
    destruct body as [f|];
      [|eapply eff_refused; unfold handle;
        [apply (patchBooking_invalid env w actor id0 existing Hg Ho He)|simpl; lia]].
    destruct (checkVenueAvailability (heap w) (ins_venueId f) (ins_eventDate f)
                (ins_startTime f) (ins_endTime f) (Some id0)) eqn:Ha;
      [|eapply eff_refused; unfold handle;
        [apply (patchBooking_conflict env w actor id0 f existing Hg Ho He Ha)
        |simpl; lia]].
    destruct (getBooking_Some w id0 existing Hg) as (i & Hi & Hl & Hid).
    eapply (eff_moved env w _ i (bwd_booking existing)); unfold handle;
      rewrite ?(patchBooking_done env w actor id0 f existing i Hg Hi Hl Ho He Ha);
      simpl; try reflexivity; try exact Hl.
    + symmetry. exact Ho.
    + intros Hs. apply stamped_spreadStatus. simpl. apply Hs.
    + congruence.
    + simpl. lia.
    + repeat constructor; simpl; congruence.
  - (* PATCH /api/bookings/:id/cancel *)
    destruct (getBooking (heap w) id0) as [existing|] eqn:Hg;
      [|eapply eff_refused; unfold handle;
        [apply (patchCancel_missing env w actor id0 Hg)|simpl; lia]].
    destruct (decide (userId (bwd_booking existing) = user_id actor)) as [Ho|Ho];
      [|eapply eff_refused; unfold handle;
        [apply (patchCancel_not_owner env w actor id0 existing Hg Ho)|simpl; lia]].
    destruct (cancellable (status (bwd_booking existing))) eqn:He;
      [|eapply eff_refused; unfold handle;
        [apply (patchCancel_wrong_stage env w actor id0 existing Hg Ho He)|simpl; lia]].
    destruct (getBooking_Some w id0 existing Hg) as (i & Hi & Hl & Hid).
    eapply (eff_moved env w _ i (bwd_booking existing)); unfold handle;
      rewrite ?(patchCancel_done env w actor id0 existing i Hg Hi Hl Ho He);
      simpl; try reflexivity; try exact Hl.
    + intros Hs. apply stamped_spreadStatus. apply Hs.
    + congruence.
    + simpl. lia.
    + repeat constructor; simpl; congruence.
  - (* PATCH /api/bookings/:id/status *)
    destruct (denied actor s) eqn:Hd;
      [eapply eff_refused; unfold handle;
       [apply (patchStatus_denied env w actor id0 s r Hd)|simpl; lia]|].
    destruct (findIndex (byId id0) (bookings (heap w))) as [i|] eqn:Hi;
      [|eapply eff_refused; unfold handle;
        [apply (patchStatus_missing env w actor id0 s r Hd Hi)|simpl; lia]].
    destruct (findIndex_lookup w id0 i Hi) as (b & Hl & Hid).
    eapply (eff_moved env w _ i b); unfold handle;
      rewrite ?(patchStatus_found env w actor id0 s r i b Hd Hi Hl);
      simpl; try reflexivity; try exact Hl.
    + intros Hs. apply stamped_spreadStatus. apply Hs.
    + congruence.
    + simpl. lia.
    + repeat constructor; simpl; congruence.
Qed.
End Handlers.

Section HandlerProperties.
Import PersistentStorage Routes.
Variable env : Env.
Implicit Types (w : Sys Store) (b : Booking) (actor : User).

(** X1. A request that writes is all or nothing: it is answered 200 and one
    [status_update] message goes out, or it is answered with an error
    status and the whole system state, clock and id counter included, is
    what it was. *)
Theorem handle_all_or_nothing w r :
  exists response,
    fst (handle r env w) = Ok response
    /\ ((statusCode response = 200
         /\ exists m, outbox (snd (handle r env w)) = (outbox w ++ [m])%list)
        \/ (400 <= statusCode response /\ snd (handle r env w) = w)).
Proof.
  destruct (handle_Effect env w r) as
    [response H Hc | nb r1 r2 m body Hf _ Ho _ _ _ _ _ _ _ _ _ _
     | i old b' rows m body Hf _ _ Ho _ _ _ _ _ _ _ _].
  - exists response. rewrite H. split; [reflexivity|]. right. auto.
  - exists (json body). split; [assumption|]. left. split; [reflexivity|]. eauto.
  - exists (json body). split; [assumption|]. left. split; [reflexivity|]. eauto.
Qed.

(** X2. The ledger is append-only: a request leaves every stored history row
    where it is and appends at most two rows, each for a booking that is
    stored afterwards and each attributed to the user who made the
    request. *)
Theorem history_append_only w r :
  exists rows,
    bookingHistory (heap (snd (handle r env w)))
      = (bookingHistory (heap w) ++ rows)%list
    /\ (List.length rows <= 2)%nat
    /\ Forall (fun h =>
         h_changedBy h = user_id (actorOf r)
         /\ In (h_bookingId h)
              (List.map id (bookings (heap (snd (handle r env w)))))) rows.
Proof.
  destruct (handle_Effect env w r) as
    [response H Hc | nb r1 r2 m body _ Hh _ _ _ _ _ _ _ Hb1 Hb2 Hc1 Hc2
     | i old b' rows m body _ Hl Hh _ Hid _ _ _ _ _ Hlen Hrows].
  - exists []. rewrite H. simpl. rewrite List.app_nil_r. repeat split; [lia|constructor].
  - exists [r1; r2]. rewrite Hh. simpl. split; [reflexivity|]. split; [lia|].
    assert (Hin : In (id nb) (List.map id (bookings (heap w) ++ [nb]))).
    { rewrite List.map_app. apply List.in_or_app. right. left. reflexivity. }
    repeat constructor; try assumption; congruence.
  - exists rows. rewrite Hh. simpl. split; [reflexivity|]. split; [lia|].
    eapply Forall_impl; [exact Hrows|]. simpl. intros h [Hb Hc]. split; [assumption|].
    rewrite Hb, <- Hid. apply List.in_map. apply list_elem_of_In.
    apply list_elem_of_insert. eapply lookup_lt_Some. exact Hl.
Qed.

(** X3. No request deletes a booking, moves it, or changes its identity: the
    ids, owners and creation times of the stored bookings stay as they are,
    position by position, and at most one booking is added at the end. *)
Theorem bookings_kept w r :
  let key := fun b => (id b, userId b, createdAt b) in
  exists added,
    List.map key (bookings (heap (snd (handle r env w))))
      = (List.map key (bookings (heap w)) ++ added)%list
    /\ (List.length added <= 1)%nat.
Proof.
  cbv zeta.
  destruct (handle_Effect env w r) as
    [response H Hc | nb r1 r2 m body _ Hh _ _ _ _ _ _ _ _ _ _ _
     | i old b' rows m body _ Hl Hh _ Hid Hu Hc _ _ _ _ _].
  - exists []. rewrite H. simpl. rewrite List.app_nil_r. split; [reflexivity|lia].
  - eexists [_]. rewrite Hh. simpl. rewrite List.map_app. split; [reflexivity|simpl; lia].
  - exists []. rewrite Hh. simpl. rewrite List.app_nil_r. split; [|lia].
    change ((fun b => (id b, userId b, createdAt b)) <$> <[i := b']> (bookings (heap w))
            = (fun b => (id b, userId b, createdAt b)) <$> bookings (heap w)).
    rewrite list_fmap_insert. apply list_insert_id.
    rewrite list_lookup_fmap, Hl. simpl. congruence.
Qed.

(** X4. Every booking of a reachable state carries its creation and update
    times, and whenever its status names a stage ([gd_approved],
    [gd_rejected], [secretary_approved], [secretary_rejected],
    [it_setup_complete]) it carries the timestamp of that stage. *)
Theorem reachable_bookings_stamped w :
  reachable env w -> Forall stamped (bookings (heap w)).
Proof.
  induction 1 as [us vs t d out | w r _ IH Hadm | w us vs _ IH]; simpl.
  - constructor.
  - destruct (handle_Effect env w r) as
      [response H Hc | nb r1 r2 m body _ Hh _ _ _ _ Hs _ _ _ _ _ _
       | i old b' rows m body _ Hl Hh _ _ _ _ Hs _ _ _ _].
    + rewrite H. exact IH.
    + rewrite Hh. simpl. apply List.Forall_app. split; [exact IH|].
      constructor; [exact Hs|constructor].
    + rewrite Hh. simpl. apply Forall_insert; [exact IH|]. apply Hs.
      rewrite List.Forall_forall in IH. apply IH. apply list_elem_of_In.
      eapply list_elem_of_lookup_2. exact Hl.
  - exact IH.
Qed.

End HandlerProperties.

Lemma reachable_bookings_stamped_witness :
  reachable Demo.env Demo.approved
  /\ Forall stamped (PersistentStorage.bookings (heap Demo.approved)).
Proof.
  split; [exact demo_reachable|].
  exact (reachable_bookings_stamped Demo.env Demo.approved demo_reachable).
Defined.

Section StoreIntegrity.
Import PersistentStorage Routes.
Variable env : Env.
Implicit Types (w : Sys Store) (b : Booking) (actor : User).

(** X5. In every reachable state the booking ids are pairwise different and
    every history row belongs to a stored booking. *)
Theorem reachable_ledger_integrity w :
  reachable env w ->
  NoDup (List.map id (bookings (heap w)))
  /\ forall h, In h (bookingHistory (heap w)) ->
               In (h_bookingId h) (List.map id (bookings (heap w))).
Proof.
  induction 1 as [us vs t d out | w r _ [IHn IHo] Hadm | w us vs _ IH]; simpl.
  - split; [constructor|intros h []].
  - destruct (handle_Effect env w r) as
      [response H Hc | nb r1 r2 m body _ Hh _ Hid _ _ _ Hfresh _ Hb1 Hb2 _ _
       | i old b' rows m body _ Hl Hh _ Hid _ _ _ _ _ _ Hrows].
    + rewrite H. auto.
    + rewrite Hh. simpl. rewrite List.map_app. simpl. split.
      * apply NoDup_app. split; [assumption|]. split; [|apply NoDup_singleton].
        intros x Hx Hin. apply list_elem_of_singleton in Hin. subst x.
        apply list_elem_of_In in Hx. apply (Hfresh Hadm). rewrite <- Hid. assumption.
      * intros h Hin. apply List.in_or_app.
        apply List.in_app_or in Hin as [Hin|[<-|[<-|[]]]]; auto;
          right; left; congruence.
    + assert (Hmap : List.map id (<[i := b']> (bookings (heap w)))
                     = List.map id (bookings (heap w))).
      { change (id <$> <[i := b']> (bookings (heap w)) = id <$> bookings (heap w)).
        rewrite list_fmap_insert. apply list_insert_id.
        rewrite list_lookup_fmap, Hl. simpl. congruence. }
      rewrite Hh. simpl. rewrite Hmap. split; [assumption|].
      intros h Hin. apply List.in_app_or in Hin as [Hin|Hin]; [auto|].
      rewrite List.Forall_forall in Hrows. destruct (Hrows h Hin) as [-> _].
      apply List.in_map. apply list_elem_of_In. eapply list_elem_of_lookup_2. exact Hl.
  - exact IH.
Qed.

Lemma find_insert {A} (p : A -> bool) (l : list A) i x x' :
  findIndex p l = Some i -> l !! i = Some x -> p x' = true ->
  find p (<[i := x']> l) = Some x'.
Proof.
  unfold find. revert i. induction l as [|y t IH]; intros i; simpl; [discriminate|].
  destruct (p y) eqn:Hy.
  - intros [= <-] _ Hp. simpl. rewrite Hp. reflexivity.
  - destruct (findIndex p t) as [k|] eqn:Hk; simpl; [|discriminate].
    intros [= <-] Hl Hp. simpl. rewrite Hy. apply (IH k); auto.
Qed.

(** Rewriting the first booking with an id keeps it the booking that
    [getBooking] finds, with the same user and venue, as long as its id,
    owner and venue are kept. *)
Lemma getBooking_insert us vs l hist hist' id0 i existing b' :
  getBooking (mkStore us vs l hist) id0 = Some existing ->
  findIndex (byId id0) l = Some i -> l !! i = Some (bwd_booking existing) ->
  id b' = id0 -> userId b' = userId (bwd_booking existing) ->
  venueId b' = venueId (bwd_booking existing) ->
  getBooking (mkStore us vs (<[i := b']> l) hist') id0
  = Some (mkBookingWithDetails b' (bwd_user existing) (bwd_venue existing)).
Proof.
  intros Hg Hi Hl Hid Hu Hv. unfold getBooking in *. simpl in *.
  rewrite (find_insert (fun b => streq (id b) id0) l i (bwd_booking existing) b' Hi Hl)
    by (apply streq_true; assumption).
  destruct (find _ l) as [b|] eqn:Hf; [|discriminate].
  unfold getUser, getVenue in *. simpl in *. rewrite Hu, Hv.
  destruct (find _ us) as [u|] eqn:Hfu; [|discriminate].
  destruct (find _ vs) as [v|] eqn:Hfv; [|discriminate].
  injection Hg as <-. simpl in *.
  destruct (find (fun u0 => streq (user_id u0) (userId b)) us); [|discriminate].
  destruct (find (fun v0 => streq (venue_id v0) (venueId b)) vs); [|discriminate].
  congruence.
Qed.

(** X6. Cancelling is final for the owner: once the owner's cancel request
    has succeeded the booking is stored as [cancelled], a second cancel
    request is answered 400 "Booking cannot be cancelled at this stage" and
    an edit 400 "Booking cannot be edited at this stage", both without
    writing. *)
Theorem cancel_is_final w actor id0 existing body :
  getBooking (heap w) id0 = Some existing ->
  userId (bwd_booking existing) = user_id actor ->
  cancellable (status (bwd_booking existing)) = true ->
  let w1 := snd (patchCancel actor id0 env w) in
  fst (patchCancel actor id0 env w)
    = Ok (json (Message "Booking cancelled successfully"))
  /\ (exists e1, getBooking (heap w1) id0 = Some e1
                 /\ status (bwd_booking e1) = cancelled)
  /\ patchCancel actor id0 env w1
     = (Ok (statusJson 400 (Message "Booking cannot be cancelled at this stage")), w1)
  /\ patchBooking actor id0 body env w1
     = (Ok (statusJson 400 (Message "Booking cannot be edited at this stage")), w1).
Proof.
  intros Hg Ho Hc. cbv zeta.
  destruct (getBooking_Some w id0 existing Hg) as (i & Hi & Hl & Hid).
  rewrite (patchCancel_done env w actor id0 existing i Hg Hi Hl Ho Hc).
  cbn [fst snd].
  set (b' := spreadStatus (bwd_booking existing) cancelled (dateAt env (ticks w))
               (Some "Booking cancelled by user")).
  match goal with |- context [patchCancel actor id0 env ?s] => set (w1 := s) end.
  assert (Hg1 : getBooking (heap w1) id0
                = Some (mkBookingWithDetails b' (bwd_user existing) (bwd_venue existing))).
  { unfold w1. cbn [heap]. destruct (heap w) as [us vs l hist] eqn:Hw. simpl in *.
    eapply getBooking_insert; eauto. }
  split; [reflexivity|]. split; [eexists; split; [exact Hg1|reflexivity]|]. split.
  - apply (patchCancel_wrong_stage env w1 actor id0 _ Hg1); [exact Ho|reflexivity].
  - apply (patchBooking_wrong_stage env w1 actor id0 body _ Hg1); [exact Ho|reflexivity].
Qed.
End StoreIntegrity.

Lemma reachable_ledger_integrity_witness :
  reachable Demo.env Demo.approved
  /\ NoDup (List.map id (PersistentStorage.bookings (heap Demo.approved))).
Proof.
  split; [exact demo_reachable|].
  exact (proj1 (reachable_ledger_integrity Demo.env Demo.approved demo_reachable)).
Defined.

Lemma cancel_is_final_witness :
  PersistentStorage.getBooking (heap Demo.stored) "b"
    = Some (PersistentStorage.mkBookingWithDetails Demo.row2 Demo.bob Demo.hall)
  /\ userId Demo.row2 = user_id Demo.bob
  /\ Routes.cancellable (status Demo.row2) = true
  /\ Routes.patchCancel Demo.bob "b" Demo.env
       (snd (Routes.patchCancel Demo.bob "b" Demo.env Demo.stored))
     = (Ok (Routes.statusJson 400
              (Routes.Message "Booking cannot be cancelled at this stage")),
        snd (Routes.patchCancel Demo.bob "b" Demo.env Demo.stored)).
Proof.
  assert (H1 : PersistentStorage.getBooking (heap Demo.stored) "b"
               = Some (PersistentStorage.mkBookingWithDetails Demo.row2 Demo.bob Demo.hall))
    by (vm_compute; reflexivity).
  split; [exact H1|]. split; [reflexivity|]. split; [reflexivity|].
  exact (proj1 (proj2 (proj2 (cancel_is_final Demo.env Demo.stored Demo.bob "b" _ None
                                H1 eq_refl eq_refl)))).
Defined.

Section Slots.
Import PersistentStorage Routes.
Variable env : Env.
Implicit Types (w : Sys Store) (b : Booking) (actor : User).

Lemma newBooking_blocks w actor f :
  strle (ins_endTime f) (ins_startTime f) = false ->
  blocks (ins_venueId f) (ins_eventDate f) (ins_startTime f) (ins_endTime f)
    (newBooking env w (parsed actor f)).
Proof.
  intros Hlt. unfold blocks, sameCalendarDate, overlaps, strge. simpl.
  repeat split; [left; reflexivity|]. unfold strle in *. intros [H|H]; congruence.
Qed.

(** X7. A slot that has been booked is taken: after a creation request with
    [startTime < endTime] has succeeded, every further creation request
    for the same venue, date and times, from any user, is answered 400
    "Venue not available for the selected time slot" and writes nothing. *)
Theorem booked_slot_is_taken w actor f actor' g :
  checkVenueAvailability (heap w) (ins_venueId f) (ins_eventDate f)
    (ins_startTime f) (ins_endTime f) None = true ->
  strle (ins_endTime f) (ins_startTime f) = false ->
  (ins_venueId g, ins_eventDate g, ins_startTime g, ins_endTime g)
    = (ins_venueId f, ins_eventDate f, ins_startTime f, ins_endTime f) ->
  let w1 := snd (postBooking actor (Some f) env w) in
  postBooking actor' (Some g) env w1 = (Ok venueNotAvailable, w1).
Proof.
  intros Ha Hlt [= Hv Hd Hs He]. cbv zeta.
  rewrite (postBooking_created env w actor f Ha). cbn [snd].
  apply postBooking_conflict. cbn [heap].
  apply (blocked_unavailable _ g (newBooking env w (parsed actor f))).
  - cbn [bookings]. apply List.in_or_app. right. left. reflexivity.
  - rewrite Hv, Hd, Hs, He. apply newBooking_blocks. assumption.
  - discriminate.
Qed.

(** X8. The times of a request are not validated: a booking whose [endTime]
    is not after its [startTime] does not block its own slot, and the same
    creation request succeeds a second time. *)
Theorem empty_slot_can_be_booked_again w actor f actor' :
  checkVenueAvailability (heap w) (ins_venueId f) (ins_eventDate f)
    (ins_startTime f) (ins_endTime f) None = true ->
  strle (ins_endTime f) (ins_startTime f) = true ->
  let w1 := snd (postBooking actor (Some f) env w) in
  fst (postBooking actor' (Some f) env w1)
  = Ok (json (BookingJson (newBooking env w1 (parsed actor' f)))).
Proof.
  intros Ha Hle. cbv zeta.
  rewrite (postBooking_created env w actor f Ha). cbn [snd].
  rewrite postBooking_created; [reflexivity|]. cbn [heap].
  apply checkVenueAvailability_true_iff. cbn [bookings]. intros b Hin Hb.
  apply List.in_app_or in Hin as [Hin|[<-|[]]].
  - apply (proj1 (checkVenueAvailability_true_iff _ _ _ _ _ _) Ha b Hin Hb).
  - exfalso. destruct Hb as (_ & _ & _ & Ho). apply Ho. left. exact Hle.
Qed.


End Slots.

Lemma booked_slot_is_taken_witness :
  PersistentStorage.checkVenueAvailability (heap Demo.start)
    "v1" Demo.march1 "10:00" "12:00" None = true
  /\ strle "12:00" "10:00" = false
  /\ Routes.postBooking Demo.bob (Some (Demo.form "10:00" "12:00")) Demo.env
       (snd (Routes.postBooking Demo.alice (Some (Demo.form "10:00" "12:00"))
               Demo.env Demo.start))
     = (Ok Routes.venueNotAvailable,
        snd (Routes.postBooking Demo.alice (Some (Demo.form "10:00" "12:00"))
               Demo.env Demo.start)).
Proof.
  split; [reflexivity|]. split; [reflexivity|].
  exact (booked_slot_is_taken Demo.env Demo.start Demo.alice
           (Demo.form "10:00" "12:00") Demo.bob (Demo.form "10:00" "12:00")
           eq_refl eq_refl eq_refl).
Defined.

Lemma empty_slot_can_be_booked_again_witness :
  PersistentStorage.checkVenueAvailability (heap Demo.start)
    "v1" Demo.march1 "12:00" "12:00" None = true
  /\ strle "12:00" "12:00" = true
  /\ fst (Routes.postBooking Demo.bob (Some (Demo.form "12:00" "12:00")) Demo.env
            (snd (Routes.postBooking Demo.alice (Some (Demo.form "12:00" "12:00"))
                    Demo.env Demo.start)))
     = Ok (Routes.json (Routes.BookingJson
             (newBooking Demo.env
                (snd (Routes.postBooking Demo.alice (Some (Demo.form "12:00" "12:00"))
                        Demo.env Demo.start))
                (parsed Demo.bob (Demo.form "12:00" "12:00"))))).
Proof.
  split; [reflexivity|]. split; [reflexivity|].
  exact (empty_slot_can_be_booked_again Demo.env Demo.start Demo.alice
           (Demo.form "12:00" "12:00") Demo.bob eq_refl eq_refl).
Defined.




(** ** The listings *)

Section Listings.
Import PersistentStorage PersistentListings.
Implicit Types (st : Store) (d : BookingWithDetails) (b : Booking).

Lemma sortDesc_perm {A} (key : A -> Z) (l : list A) : sortDesc key l ≡ₚ l.
Proof.
  induction l as [|y t IH]; simpl; [reflexivity|].
  unfold sortDesc in *. simpl. rewrite insertDesc_perm, IH. reflexivity.
Qed.

Lemma sortDesc_In {A} (key : A -> Z) (l : list A) x :
  In x (sortDesc key l) <-> In x l.
Proof. rewrite <- !list_elem_of_In, (sortDesc_perm key l). reflexivity. Qed.

Lemma withDetails_In st l d :
  In d (withDetails st l) <->
  In (bwd_booking d) l
  /\ getUser st (userId (bwd_booking d)) = Some (bwd_user d)
  /\ getVenue st (venueId (bwd_booking d)) = Some (bwd_venue d).
Proof.
  induction l as [|b t IH]; simpl; [tauto|].
  destruct (getUser st (userId b)) as [u|] eqn:Hu;
    destruct (getVenue st (venueId b)) as [v|] eqn:Hv; simpl; rewrite IH; split.
  - intros [<-|H]; simpl; [auto|tauto].
  - intros ([E|H] & Hu' & Hv'); [|tauto]. left. destruct d as [b' u' v']. simpl in *.
    subst b'. congruence.
  - tauto.
  - intros ([<-|H] & Hu' & Hv'); [congruence|tauto].
  - tauto.
  - intros ([<-|H] & Hu' & Hv'); [congruence|tauto].
  - tauto.
  - intros ([<-|H] & Hu' & Hv'); [congruence|tauto].
Qed.

Lemma find_Some_In {A} (p : A -> bool) (l : list A) x :
  find p l = Some x -> In x l /\ p x = true.
Proof. unfold find. apply List.find_some. Qed.

Lemma statusIn_In l s : statusIn l s = true <-> In s l.
Proof.
  unfold statusIn. rewrite List.existsb_exists. split.
  - intros (x & Hx & He). apply bool_decide_eq_true in He. congruence.
  - intros H. exists s. split; [assumption|]. apply bool_decide_eq_true. reflexivity.
Qed.

(* Membership in the two lists of a role. *)
Lemma queues_iff st role d :
  (In d (getBookingsByRole st role) <->
     joined st d /\ pendingStatus role = Some (status (bwd_booking d)))
  /\ (In d (getProcessedBookingsByRole st role) <->
        joined st d /\ In (status (bwd_booking d)) (processedStatuses role))
  /\ (joined st d -> user_id (bwd_user d) = userId (bwd_booking d)
                     /\ venue_id (bwd_venue d) = venueId (bwd_booking d)).
Proof.
  unfold getBookingsByRole, getProcessedBookingsByRole, joined.
  rewrite !sortDesc_In, !withDetails_In. split; [|split].
  - destruct role; simpl; rewrite ?List.filter_In, ?bool_decide_eq_true;
      intuition congruence.
  - destruct role; cbn [processedStatuses]; rewrite ?List.filter_In, ?statusIn_In;
      simpl; tauto.
  - intros (_ & Hu & Hv). split.
    + apply find_Some_In in Hu as [_ Hu]. apply streq_true in Hu. exact Hu.
    + apply find_Some_In in Hv as [_ Hv]. apply streq_true in Hv. exact Hv.
Qed.

(** X11. The queues: a role's pending list holds exactly the stored bookings in
    the role's pending status, and its processed list exactly those in one
    of its processed statuses, each joined with the user and venue the
    store finds for it; the joined user is the owner. The role [user] has
    empty lists.
    When the stored bookings carry their creation times the pending list
    is in descending order of creation time, and when they carry their
    update times the processed list is in descending order of update
    time. *)
Theorem queues_spec st role d :
  (In d (getBookingsByRole st role) <->
     joined st d /\ pendingStatus role = Some (status (bwd_booking d)))
  /\ (In d (getProcessedBookingsByRole st role) <->
        joined st d /\ In (status (bwd_booking d)) (processedStatuses role))
  /\ (joined st d -> user_id (bwd_user d) = userId (bwd_booking d)
                     /\ venue_id (bwd_venue d) = venueId (bwd_booking d))
  /\ (Forall (fun b => is_Some (createdAt b)) (bookings st) ->
      descending createdTime (getBookingsByRole st role))
  /\ (Forall (fun b => is_Some (updatedAt b)) (bookings st) ->
      descending updatedTime (getProcessedBookingsByRole st role)).
Proof.
  destruct (queues_iff st role d) as (H1 & H2 & H3).
  split; [exact H1|]. split; [exact H2|]. split; [exact H3|].
  unfold getBookingsByRole, getProcessedBookingsByRole.
  split; intros _; apply sortDesc_descending.
Qed.


(** X13. No booking is pending and processed for the same role: the bookings of
    a role's pending list and of its processed list differ in status. *)
Theorem pending_and_processed_differ st role d1 d2 :
  In d1 (getBookingsByRole st role) ->
  In d2 (getProcessedBookingsByRole st role) ->
  status (bwd_booking d1) <> status (bwd_booking d2).
Proof.
  intros H1 H2.
  apply (proj1 (queues_iff st role d1)) in H1 as [_ H1].
  apply (proj1 (proj2 (queues_iff st role d2))) in H2 as [_ H2].
  destruct role; simpl in *; try discriminate; injection H1 as <-;
    intros E; rewrite <- E in H2; intuition discriminate.
Qed.

(** X14. A cancelled booking is listed as processed for every reviewing role,
    whichever stage it had reached. *)
Theorem cancelled_is_processed_everywhere st role d :
  In d (getAllBookings st) -> status (bwd_booking d) = cancelled ->
  role <> user ->
  In d (getProcessedBookingsByRole st role).
Proof.
  intros Hin Hs Hr. apply (proj1 (proj2 (queues_iff st role d))).
  unfold getAllBookings in Hin. rewrite sortDesc_In, withDetails_In in Hin.
  split; [exact Hin|]. rewrite Hs. destruct role; simpl; tauto.
Qed.

Lemma withDetails_created st l :
  Forall (fun b => is_Some (createdAt b)) l ->
  Forall (fun d => is_Some (createdAt (bwd_booking d))) (withDetails st l).
Proof.
  induction 1 as [|b t Hb _ IH]; simpl; [constructor|].
  destruct (getUser st (userId b)), (getVenue st (venueId b)); auto.
Qed.

(** X15. A user's own list: exactly the stored bookings the user owns, joined
    with user and venue; and, the bookings carrying their creation times,
    the newest comes first. *)
Theorem getBookingsByUser_spec st uid :
  Forall (fun b => is_Some (createdAt b)) (bookings st) ->
  (forall d, In d (getBookingsByUser st uid) <->
             joined st d /\ userId (bwd_booking d) = uid)
  /\ Forall (fun d => is_Some (createdAt (bwd_booking d))) (getBookingsByUser st uid)
  /\ descending createdTime (getBookingsByUser st uid).
Proof.
  intros Hc. split; [|split].
  - intros d. unfold getBookingsByUser, joined.
    rewrite sortDesc_In, withDetails_In, List.filter_In, streq_true. tauto.
  - unfold getBookingsByUser. apply List.Forall_forall. intros d Hd.
    apply sortDesc_In in Hd. revert d Hd. apply List.Forall_forall.
    apply withDetails_created. apply List.Forall_forall. intros b Hb.
    apply List.filter_In in Hb as [Hb _]. rewrite List.Forall_forall in Hc. auto.
  - apply sortDesc_descending.
Qed.

(** X16. A booking whose user or venue the store does not find is hidden: it is
    in no listing, and, its id being unique, [getBooking] does not return
    it. *)
Theorem unresolved_booking_hidden st b :
  In b (bookings st) ->
  NoDup (List.map id (bookings st)) ->
  getUser st (userId b) = None \/ getVenue st (venueId b) = None ->
  getBooking st (id b) = None
  /\ forall d, bwd_booking d = b ->
       ~ In d (getAllBookings st)
       /\ ~ In d (getBookingsByUser st (userId b))
       /\ ~ In d (getBookingsByStatus st (status b))
       /\ (forall role, ~ In d (getBookingsByRole st role)
                        /\ ~ In d (getProcessedBookingsByRole st role)).
Proof.
  intros Hin Hnd Hun. split.
  - unfold getBooking. destruct (find _ (bookings st)) as [b0|] eqn:Hf; [|reflexivity].
    assert (b0 = b) as ->.
    { destruct (find_findIndex _ _ _ Hf) as (i & Hi & Hl).
      apply findIndex_Some in Hi as (x & Hx & Hp & _).
      rewrite Hl in Hx. injection Hx as <-. apply streq_true in Hp.
      apply list_elem_of_In, list_elem_of_lookup_1 in Hin as [j Hj].
      assert (i = j).
      { eapply (NoDup_lookup (List.map id (bookings st))); [exact Hnd| |].
        - change (List.map id (bookings st)) with (id <$> bookings st).
          rewrite list_lookup_fmap, Hl. reflexivity.
        - change (List.map id (bookings st)) with (id <$> bookings st).
          rewrite list_lookup_fmap, Hj. simpl. congruence. }
      subst j. congruence. }
    destruct Hun as [-> | Hv]; [reflexivity|]. rewrite Hv.
    destruct (getUser st (userId b)); reflexivity.
  - intros d <-.
    assert (Hj : ~ joined st d).
    { intros (_ & Hu & Hv). destruct Hun; congruence. }
    unfold getAllBookings, getBookingsByUser, getBookingsByStatus.
    rewrite !sortDesc_In, !withDetails_In. repeat split.
    + intros H. apply Hj. exact H.
    + intros (H & Hu & Hv). apply Hj. apply List.filter_In in H as [H _].
      repeat split; assumption.
    + intros (H & Hu & Hv). apply Hj. apply List.filter_In in H as [H _].
      repeat split; assumption.
    + intros H. apply (proj1 (queues_iff st role d)) in H. tauto.
    + intros H. apply (proj1 (proj2 (queues_iff st role d))) in H. tauto.
Qed.
End Listings.

Ltac listed := vm_compute; repeat (first [left; reflexivity | right]).

Lemma pending_and_processed_differ_witness :
  In Scenario.pendingOfDirector
    (PersistentListings.getBookingsByRole Scenario.archive group_director)
  /\ In Scenario.processedOfDirector
       (PersistentListings.getProcessedBookingsByRole Scenario.archive group_director)
  /\ status Demo.row2 <> status Demo.row.
Proof.
  assert (H1 : In Scenario.pendingOfDirector
                 (PersistentListings.getBookingsByRole Scenario.archive group_director))
    by listed.
  assert (H2 : In Scenario.processedOfDirector
                 (PersistentListings.getProcessedBookingsByRole Scenario.archive
                    group_director))
    by listed.
  split; [exact H1|]. split; [exact H2|].
  exact (pending_and_processed_differ Scenario.archive group_director _ _ H1 H2).
Defined.

Lemma cancelled_is_processed_everywhere_witness :
  In Scenario.withdrawnJoined (PersistentListings.getAllBookings Scenario.archive)
  /\ status Scenario.withdrawn = cancelled
  /\ it_team <> user
  /\ In Scenario.withdrawnJoined
       (PersistentListings.getProcessedBookingsByRole Scenario.archive it_team).
Proof.
  assert (H1 : In Scenario.withdrawnJoined
                 (PersistentListings.getAllBookings Scenario.archive))
    by listed.
  assert (H3 : it_team <> user) by discriminate.
  split; [exact H1|]. split; [reflexivity|]. split; [exact H3|].
  exact (cancelled_is_processed_everywhere Scenario.archive it_team _ H1 eq_refl H3).
Defined.

Lemma demo_created :
  Forall (fun b => is_Some (createdAt b)) (PersistentStorage.bookings Scenario.archive).
Proof. repeat constructor; eexists; reflexivity. Defined.

Lemma getBookingsByUser_spec_witness :
  Forall (fun b => is_Some (createdAt b)) (PersistentStorage.bookings Scenario.archive)
  /\ descending PersistentListings.createdTime
       (PersistentListings.getBookingsByUser Scenario.archive "u2").
Proof.
  split; [exact demo_created|].
  exact (proj2 (proj2 (getBookingsByUser_spec Scenario.archive "u2" demo_created))).
Defined.

Lemma unresolved_booking_hidden_witness :
  In Scenario.stray (PersistentStorage.bookings Scenario.archive)
  /\ NoDup (List.map id (PersistentStorage.bookings Scenario.archive))
  /\ PersistentStorage.getVenue Scenario.archive (venueId Scenario.stray) = None
  /\ PersistentStorage.getBooking Scenario.archive (id Scenario.stray) = None.
Proof.
  assert (H1 : In Scenario.stray (PersistentStorage.bookings Scenario.archive))
    by (right; right; right; left; reflexivity).
  assert (H2 : NoDup (List.map id (PersistentStorage.bookings Scenario.archive)))
    by (apply (bool_decide_unpack _); vm_compute; exact I).
  assert (H3 : PersistentStorage.getVenue Scenario.archive (venueId Scenario.stray) = None)
    by reflexivity.
  split; [exact H1|]. split; [exact H2|]. split; [exact H3|].
  exact (proj1 (unresolved_booking_hidden Scenario.archive Scenario.stray H1 H2
                  (or_intror H3))).
Defined.

(** ** The reading routes and the client *)

Section Readers.
Import PersistentStorage PersistentListings Routes ReadRoutes.
Variable env : Env.
Implicit Types (w : Sys Store) (d : BookingWithDetails) (actor : User).

Lemma includes_singleton role r : includes [role] r = true <-> r = role.
Proof.
  unfold includes. simpl. rewrite orb_false_r, bool_decide_eq_true. split; congruence.
Qed.

(** X17. What a reviewer is shown can be decided on: when a pending route has
    answered a user with a list, that user's request to store a status of
    the route's role ([gd_approved] or [gd_rejected] for the director,
    [secretary_approved] or [secretary_rejected] for the secretary,
    [it_setup_complete] for the IT team) on any booking of the list
    succeeds, whatever the remarks. *)
Theorem pending_queue_is_actionable w role actor l d s r :
  getPending role (Some actor) (heap w) = BookingList l ->
  In d l -> requiredRole s = Some role ->
  exists b',
    fst (patchStatus actor (id (bwd_booking d)) s r env w) = Ok (json (BookingJson b'))
    /\ status b' = s /\ id b' = id (bwd_booking d).
Proof.
  unfold getPending, authorize. intros Hq Hin Hs.
  destruct (includes [role] (user_role actor)) eqn:Hinc; cbn [negb] in Hq;
    [|discriminate].
  injection Hq as <-. apply includes_singleton in Hinc.
  assert (Hd : denied actor s = false).
  { destruct (denied actor s) eqn:E; [|reflexivity].
    apply denied_iff in E as (r' & Hr' & Hne). congruence. }
  apply (proj1 (queues_iff (heap w) role d)) in Hin as [(Hb & _) _].
  destruct (findIndex_In (byId (id (bwd_booking d))) (bookings (heap w)) _ Hb)
    as [i Hi]; [apply streq_refl|].
  destruct (findIndex_lookup w _ i Hi) as (old & Hl & Hid).
  rewrite (patchStatus_found env w actor _ s r i old Hd Hi Hl). simpl.
  eexists. split; [reflexivity|]. split; [reflexivity|]. exact Hid.
Qed.

(** X18. A pending or processed route refuses every user of another role with
    403 "Insufficient permissions", and a request without a user with 401;
    it shows a list only to a user of its own role. *)
Theorem queue_routes_gate role reqUser st :
  (forall l, getPending role reqUser st = BookingList l ->
             exists u, reqUser = Some u /\ user_role u = role
                       /\ l = getBookingsByRole st role)
  /\ (forall l, getProcessed role reqUser st = BookingList l ->
                exists u, reqUser = Some u /\ user_role u = role
                          /\ l = getProcessedBookingsByRole st role)
  /\ (forall u, reqUser = Some u -> user_role u <> role ->
                getPending role reqUser st
                = Refused (statusJson 403 (Message "Insufficient permissions"))
                /\ getProcessed role reqUser st
                   = Refused (statusJson 403 (Message "Insufficient permissions"))).
Proof.
  unfold getPending, getProcessed, authorize. destruct reqUser as [u|].
  - destruct (includes [role] (user_role u)) eqn:Hinc; cbn [negb].
    + apply includes_singleton in Hinc.
      split; [|split].
      * intros l [= <-]. eauto.
      * intros l [= <-]. eauto.
      * intros u' [= <-] Hne. contradiction.
    + split; [|split]; [discriminate|discriminate|].
      intros u' _ _. split; reflexivity.
  - split; [|split]; discriminate.
Qed.
End Readers.

Lemma pending_queue_is_actionable_witness :
  ReadRoutes.getPending group_director (Some Demo.director) (heap Demo.stored)
  = ReadRoutes.BookingList
      (PersistentListings.getBookingsByRole (heap Demo.stored) group_director)
  /\ In Scenario.pendingOfDirector
       (PersistentListings.getBookingsByRole (heap Demo.stored) group_director)
  /\ requiredRole gd_rejected = Some group_director
  /\ exists b',
       fst (Routes.patchStatus Demo.director "b" gd_rejected None Demo.env Demo.stored)
       = Ok (Routes.json (Routes.BookingJson b'))
       /\ status b' = gd_rejected /\ id b' = "b".
Proof.
  assert (H1 : ReadRoutes.getPending group_director (Some Demo.director)
                 (heap Demo.stored)
               = ReadRoutes.BookingList
                   (PersistentListings.getBookingsByRole (heap Demo.stored)
                      group_director))
    by (vm_compute; reflexivity).
  assert (H2 : In Scenario.pendingOfDirector
                 (PersistentListings.getBookingsByRole (heap Demo.stored)
                    group_director))
    by listed.
  split; [exact H1|]. split; [exact H2|]. split; [reflexivity|].
  exact (pending_queue_is_actionable Demo.env Demo.stored group_director
           Demo.director _ Scenario.pendingOfDirector gd_rejected None
           H1 H2 eq_refl).
Defined.

Section ClientViews.
Import PersistentStorage Routes.
Variable env : Env.
Implicit Types (w : Sys Store) (d : BookingWithDetails) (actor : User).

Lemma canCancelBooking_cancellable d :
  Client.canCancelBooking d = cancellable (status (bwd_booking d)).
Proof.
  unfold Client.canCancelBooking. destruct (status (bwd_booking d)); reflexivity.
Qed.

Lemma canEditBooking_editable d :
  Client.canEditBooking d = editable (status (bwd_booking d)).
Proof.
  unfold Client.canEditBooking. destruct (status (bwd_booking d)); reflexivity.
Qed.

(** X19. The buttons of the bookings page and the gates of the server agree.
    For a booking as GET /api/bookings/:id returns it and the user who
    owns it: [canCancelBooking] holds exactly when the cancel route
    cancels the booking, and [canEditBooking] holds exactly when the edit
    route never answers "Booking cannot be edited at this stage", whatever
    the form. *)
Theorem client_buttons_match_server w actor id0 d :
  getBooking (heap w) id0 = Some d ->
  userId (bwd_booking d) = user_id actor ->
  (Client.canCancelBooking d = true <->
   fst (patchCancel actor id0 env w)
   = Ok (json (Message "Booking cancelled successfully")))
  /\ (Client.canEditBooking d = true <->
      forall body,
        fst (patchBooking actor id0 body env w)
        <> Ok (statusJson 400 (Message "Booking cannot be edited at this stage"))).
Proof.
  intros Hg Ho. rewrite canCancelBooking_cancellable, canEditBooking_editable.
  destruct (getBooking_Some w id0 d Hg) as (i & Hi & Hl & Hid).
  split.
  - destruct (cancellable (status (bwd_booking d))) eqn:Hc.
    + rewrite (patchCancel_done env w actor id0 d i Hg Hi Hl Ho Hc).
      split; reflexivity.
    + rewrite (patchCancel_wrong_stage env w actor id0 d Hg Ho Hc).
      split; discriminate.
  - destruct (editable (status (bwd_booking d))) eqn:He.
    + split; [intros _|reflexivity]. intros [f|].
      * destruct (checkVenueAvailability (heap w) (ins_venueId f) (ins_eventDate f)
                    (ins_startTime f) (ins_endTime f) (Some id0)) eqn:Ha.
        -- rewrite (patchBooking_done env w actor id0 f d i Hg Hi Hl Ho He Ha).
           discriminate.
        -- rewrite (patchBooking_conflict env w actor id0 f d Hg Ho He Ha).
           discriminate.
      * rewrite (patchBooking_invalid env w actor id0 d Hg Ho He). discriminate.
    + split; [discriminate|]. intros H. exfalso. apply (H None).
      rewrite (patchBooking_wrong_stage env w actor id0 None d Hg Ho He).
      reflexivity.
Qed.



(** X21. The steps of the tracking page. There are four, for [submitted],
    [gd_approved], [secretary_approved] and [it_setup_complete] in this
    order; a step is completed only if the step before it is; a step
    shown as rejected is not completed and neither is any later step; and
    for a booking that carries the timestamp of the stage its status
    names, the step of that status, or the step shown as rejected, has a
    date. *)
Theorem tracking_steps_progress d :
  let steps := Client.getTrackingSteps (Some d) in
  List.map Client.step_status steps
  = [submitted; gd_approved; secretary_approved; it_setup_complete]
  /\ (forall i s1 s2, steps !! i = Some s1 -> steps !! (S i) = Some s2 ->
        Client.step_completed s2 = true -> Client.step_completed s1 = true)
  /\ (forall i j s1 s2, steps !! i = Some s1 -> steps !! j = Some s2 ->
        (i <= j)%nat -> Client.step_rejected s1 = Some true ->
        Client.step_completed s2 = false)
  /\ (stamped (bwd_booking d) ->
      forall s0, In s0 steps ->
        Client.step_status s0 = status (bwd_booking d)
        \/ Client.step_rejected s0 = Some true ->
        is_Some (Client.step_date s0)).
Proof.
  cbv zeta. unfold Client.getTrackingSteps. split; [reflexivity|].
  split; [|split].
  - intros [|[|[|[|i]]]] s1 s2 H1 H2; simpl in H1, H2; try discriminate;
      injection H1 as <-; injection H2 as <-;
      cbn [Client.step_completed]; destruct (status (bwd_booking d));
      vm_compute; congruence.
  - intros [|[|[|[|i]]]] [|[|[|[|j]]]] s1 s2 H1 H2 Hij; simpl in H1, H2;
      try discriminate; try lia;
      injection H1 as <-; injection H2 as <-;
      cbn [Client.step_completed Client.step_rejected];
      destruct (status (bwd_booking d)); vm_compute; congruence.
  - intros (Hc & _ & Hgd & Hsec & Hit) s0 Hin Hs.
    simpl in Hin. destruct Hin as [<-|[<-|[<-|[<-|[]]]]];
      cbn [Client.step_status Client.step_rejected Client.step_date] in *.
    + exact Hc.
    + apply Hgd. destruct Hs as [<-|Hs]; [left; reflexivity|].
      injection Hs as Hs. apply bool_decide_eq_true in Hs. rewrite Hs.
      right; left; reflexivity.
    + apply Hsec. destruct Hs as [<-|Hs]; [left; reflexivity|].
      injection Hs as Hs. apply bool_decide_eq_true in Hs. rewrite Hs.
      right; left; reflexivity.
    + apply Hit. destruct Hs as [<-|Hs]; [reflexivity|discriminate].
Qed.
End ClientViews.

Lemma client_buttons_match_server_witness :
  PersistentStorage.getBooking (heap Demo.stored) "b" = Some Scenario.pendingOfDirector
  /\ userId Demo.row2 = user_id Demo.bob
  /\ Client.canCancelBooking Scenario.pendingOfDirector = true
  /\ fst (Routes.patchCancel Demo.bob "b" Demo.env Demo.stored)
     = Ok (Routes.json (Routes.Message "Booking cancelled successfully")).
Proof.
  assert (H1 : PersistentStorage.getBooking (heap Demo.stored) "b"
               = Some Scenario.pendingOfDirector) by (vm_compute; reflexivity).
  split; [exact H1|]. split; [reflexivity|]. split; [reflexivity|].
  exact (proj1 (proj1 (client_buttons_match_server Demo.env Demo.stored Demo.bob
                         "b" Scenario.pendingOfDirector H1 eq_refl)) eq_refl).
Defined.

(** ** The database storage *)

Section DatabaseChecks.
Import DatabaseStorage.

Lemma ascii_compare_refl c : Ascii.compare c c = Eq.
Proof. unfold Ascii.compare. apply N.compare_refl. Qed.

Lemma ascii_compare_lt_trans a b c :
  Ascii.compare a b = Lt -> Ascii.compare b c = Lt -> Ascii.compare a c = Lt.
Proof.
  unfold Ascii.compare. rewrite !N.compare_lt_iff. apply N.lt_trans.
Qed.

Lemma string_compare_trans a :
  forall b c, String.compare a b <> Gt -> String.compare b c <> Gt ->
              String.compare a c <> Gt.
Proof.
  induction a as [|x a IH]; intros [|y b] [|z c]; simpl; try congruence.
  destruct (Ascii.compare x y) eqn:Exy; [| |congruence];
    destruct (Ascii.compare y z) eqn:Eyz; try congruence.
  - apply Ascii.compare_eq_iff in Exy, Eyz. subst.
    rewrite ascii_compare_refl. apply IH.
  - apply Ascii.compare_eq_iff in Exy. subst. rewrite Eyz. congruence.
  - apply Ascii.compare_eq_iff in Eyz. subst. rewrite Exy. congruence.
  - rewrite (ascii_compare_lt_trans _ _ _ Exy Eyz). congruence.
Qed.

Lemma strle_trans a b c : strle a b = true -> strle b c = true -> strle a c = true.
Proof.
  unfold strle, String.leb. intros H1 H2.
  pose proof (string_compare_trans a b c) as H.
  destruct (String.compare a b); destruct (String.compare b c);
    destruct (String.compare a c); try reflexivity; try discriminate;
    exfalso; apply H; congruence.
Qed.

Lemma strle_total a b : strle a b = true \/ strle b a = true.
Proof. apply String.leb_total. Qed.

(** Closed intervals that meet satisfy the time clause of the query; for
    ranges that do not end before they start the clause says no more than
    that. *)
Lemma meets_timeClause s e b : meets s e b -> timeClause s e b = true.
Proof.
  unfold meets, timeClause, lte, gte. intros [H1 H2].
  destruct (strle_total (startTime b) s) as [Hs|Hs]; unfold strge, strle in *.
  - rewrite Hs, H2. reflexivity.
  - destruct (strle_total (endTime b) e) as [He|He].
    + unfold strge, strle in *. rewrite Hs, He. rewrite !orb_true_r. reflexivity.
    + unfold strge, strle in *. rewrite H1, He. rewrite orb_true_r. reflexivity.
Qed.

Lemma timeClause_meets s e b :
  strle s e = true -> strle (startTime b) (endTime b) = true ->
  timeClause s e b = true -> meets s e b.
Proof.
  unfold meets, timeClause, lte, gte. intros Hse Hb.
  rewrite !orb_true_iff, !andb_true_iff. unfold strge.
  change String.leb with strle.
  intros [[[H1 H2]|[H1 H2]]|[H1 H2]].
  - split; [exact (strle_trans _ _ _ H1 Hse)|exact H2].
  - split; [exact H1|exact (strle_trans _ _ _ Hse H2)].
  - split; [exact (strle_trans _ _ _ Hb H2)|exact (strle_trans _ _ _ H1 Hb)].
Qed.

Lemma statusClause_active b : statusClause b = true <-> In (status b) activeStatuses.
Proof.
  unfold statusClause, activeStatuses. destruct (status b); simpl; split;
    try reflexivity; try discriminate; intuition discriminate.
Qed.

Lemma filter_nonempty {A} (p : A -> bool) l :
  (List.length (List.filter p l) =? 0)%nat = false <-> exists x, In x l /\ p x = true.
Proof.
  split.
  - destruct (List.filter p l) as [|x t] eqn:E; [discriminate|]. intros _.
    exists x. apply List.filter_In. rewrite E. left. reflexivity.
  - intros (x & Hx). apply List.filter_In in Hx.
    destruct (List.filter p l); [contradiction|reflexivity].
Qed.

(** The query of [DatabaseStorage.checkVenueAvailability] finds a row
    exactly when a booking other than the excluded one is on the venue,
    has the very timestamp asked for, is active and satisfies the time
    clause. *)
Lemma database_false_iff db v d s e ex :
  checkVenueAvailability db v d s e ex = false <->
  exists b, In b (bookings db) /\ ~ excluded ex b
            /\ venueId b = v /\ eventDate b = d
            /\ In (status b) activeStatuses /\ timeClause s e b = true.
Proof.
  unfold checkVenueAvailability, excluded. cbv zeta.
  destruct (truthy ex) eqn:Ht; rewrite filter_nonempty; split.
  - intros (b & Hin & Hp). rewrite !andb_true_iff in Hp.
    destruct Hp as ((((Hv & Hd) & Hx) & Hc) & Hs).
    exists b. split; [exact Hin|].
    apply negb_true_iff, bool_decide_eq_false in Hx.
    split; [intros [_ Hq]; congruence|].
    split; [apply streq_true; exact Hv|]. split; [apply Z.eqb_eq; exact Hd|].
    split; [apply statusClause_active; exact Hs|exact Hc].
  - intros (b & Hin & Hx & Hv & Hd & Hs & Hc). exists b. split; [exact Hin|].
    rewrite !andb_true_iff. repeat split.
    + apply streq_true. exact Hv.
    + apply Z.eqb_eq. exact Hd.
    + apply negb_true_iff, bool_decide_eq_false. intros Hq. apply Hx.
      split; [reflexivity|congruence].
    + exact Hc.
    + apply statusClause_active. exact Hs.
  - intros (b & Hin & Hp). rewrite !andb_true_iff in Hp.
    destruct Hp as (((Hv & Hd) & Hc) & Hs).
    exists b. split; [exact Hin|].
    split; [intros [Hq _]; discriminate|].
    split; [apply streq_true; exact Hv|]. split; [apply Z.eqb_eq; exact Hd|].
    split; [apply statusClause_active; exact Hs|exact Hc].
  - intros (b & Hin & _ & Hv & Hd & Hs & Hc). exists b. split; [exact Hin|].
    rewrite !andb_true_iff. repeat split.
    + apply streq_true. exact Hv.
    + apply Z.eqb_eq. exact Hd.
    + exact Hc.
    + apply statusClause_active. exact Hs.
Qed.

(** X22. What the database check decides. When the requested range and the
    ranges of the stored bookings do not end before they start, a slot is
    refused exactly when an active booking of the venue, other than the
    excluded one, has the requested timestamp as its event date and a
    time range that meets the requested one as closed intervals: sharing
    one end point is enough. *)
Theorem database_checkVenueAvailability_closed_intervals db v d s e ex :
  strle s e = true ->
  Forall (fun b => strle (startTime b) (endTime b) = true) (bookings db) ->
  (checkVenueAvailability db v d s e ex = false <->
   exists b, In b (bookings db) /\ ~ excluded ex b
             /\ venueId b = v /\ eventDate b = d
             /\ In (status b) activeStatuses /\ meets s e b).
Proof.
  intros Hse Hall. rewrite database_false_iff. rewrite List.Forall_forall in Hall.
  split; intros (b & Hin & Hx & Hv & Hd & Hs & Hc); exists b;
    (split; [exact Hin|]); (split; [exact Hx|]); (split; [exact Hv|]);
    (split; [exact Hd|]); (split; [exact Hs|]).
  - exact (timeClause_meets s e b Hse (Hall b Hin) Hc).
  - exact (meets_timeClause s e b Hc).
Qed.

(** X23. The two storages compared. On the same bookings, when every stored
    booking on the calendar day of the request carries the very timestamp
    of the request, the database check refuses every slot the file-backed
    check refuses. *)
Theorem database_refuses_what_persistent_refuses st db v d s e ex :
  bookings db = PersistentStorage.bookings st ->
  (forall b, In b (PersistentStorage.bookings st) ->
             sameCalendarDate (eventDate b) d -> eventDate b = d) ->
  PersistentStorage.checkVenueAvailability st v d s e ex = false ->
  checkVenueAvailability db v d s e ex = false.
Proof.
  intros Hb Hd H. apply checkVenueAvailability_false_iff in H.
  destruct H as (b & Hin & Hx & Hv & Hsame & Hs & Ho).
  apply database_false_iff. exists b. rewrite Hb.
  split; [exact Hin|]. split; [exact Hx|]. split; [exact Hv|].
  split; [exact (Hd b Hin Hsame)|]. split; [exact Hs|].
  apply meets_timeClause. unfold meets. unfold overlaps, strge in Ho.
  split.
  - destruct (strle_total (startTime b) e) as [H|H]; [exact H|].
    exfalso. apply Ho. left. exact H.
  - destruct (strle_total s (endTime b)) as [H|H]; [exact H|].
    exfalso. apply Ho. right. exact H.
Qed.

Variable env : Env.

(** X24. [DatabaseStorage.updateBookingStatus] is not atomic. When the booking
    is stored but the acting user is not a row of the users table, the
    insert into the history violates its foreign key and the call throws,
    after the update of the booking: the booking is left with the new
    status and no history row is written. *)
Theorem database_updateBookingStatus_not_atomic (w : Sys Tables) id0 s uid r b :
  In b (bookings (heap w)) -> id b = id0 ->
  (forall u, In u (users (heap w)) -> user_id u <> uid) ->
  exists e w',
    updateBookingStatus id0 s uid r env w = (Throw e, w')
    /\ (exists b', In b' (bookings (heap w')) /\ id b' = id0 /\ status b' = s
                   /\ userId b' = userId b)
    /\ bookingHistory (heap w') = bookingHistory (heap w).
Proof.
  intros Hin Hid Hu.
  assert (Hno : existsb (fun u => streq (user_id u) uid) (users (heap w)) = false).
  { destruct (existsb _ _) eqn:E; [|reflexivity].
    apply existsb_exists in E as (u & Hui & Hq). apply streq_true in Hq.
    exfalso. exact (Hu u Hui Hq). }
  assert (Hmap : forall stamp,
    In (setStatus b s stamp r)
       (List.map (fun x => if streq (id x) id0 then setStatus x s stamp r else x)
          (bookings (heap w)))).
  { intros stamp. apply in_map_iff. exists b. split; [|exact Hin].
    rewrite (proj2 (streq_true (id b) id0) Hid). reflexivity. }
  unfold updateBookingStatus, addBookingHistory.
  destruct (stamps s); unfold bind, gets, modify, newDate, generateId, ret, throw;
    cbn [heap ticks draws outbox users bookings bookingHistory ih_bookingId
         ih_changedBy];
    rewrite Hno, andb_false_r; cbn [negb];
    eexists; eexists; (split; [reflexivity|]); cbn [heap bookings bookingHistory];
    (split; [|reflexivity]); eexists; (split; [apply Hmap|]);
    destruct s; simpl; auto.
Qed.
End DatabaseChecks.

Lemma database_checkVenueAvailability_closed_intervals_witness :
  strle "12:00" "13:00" = true
  /\ Forall (fun b => strle (startTime b) (endTime b) = true)
       (DatabaseStorage.bookings (heap Demo.tables))
  /\ (DatabaseStorage.checkVenueAvailability (heap Demo.tables)
        "v1" Demo.march1 "12:00" "13:00" None = false <->
      exists b, In b (DatabaseStorage.bookings (heap Demo.tables))
                /\ ~ excluded None b /\ venueId b = "v1"
                /\ eventDate b = Demo.march1
                /\ In (status b) activeStatuses /\ meets "12:00" "13:00" b).
Proof.
  assert (H2 : Forall (fun b => strle (startTime b) (endTime b) = true)
                 (DatabaseStorage.bookings (heap Demo.tables)))
    by (repeat constructor).
  split; [reflexivity|]. split; [exact H2|].
  exact (database_checkVenueAvailability_closed_intervals (heap Demo.tables)
           "v1" Demo.march1 "12:00" "13:00" None eq_refl H2).
Defined.

Lemma demo_same_timestamps :
  forall b, In b (PersistentStorage.bookings (heap Demo.stored)) ->
            sameCalendarDate (eventDate b) Demo.march1 -> eventDate b = Demo.march1.
Proof. intros b [<-|[<-|[]]] _; reflexivity. Defined.

Lemma database_refuses_what_persistent_refuses_witness :
  DatabaseStorage.bookings (heap Demo.tables)
  = PersistentStorage.bookings (heap Demo.stored)
  /\ PersistentStorage.checkVenueAvailability (heap Demo.stored)
       "v1" Demo.march1 "11:00" "13:00" None = false
  /\ DatabaseStorage.checkVenueAvailability (heap Demo.tables)
       "v1" Demo.march1 "11:00" "13:00" None = false.
Proof.
  split; [reflexivity|]. split; [reflexivity|].
  exact (database_refuses_what_persistent_refuses (heap Demo.stored)
           (heap Demo.tables) "v1" Demo.march1 "11:00" "13:00" None
           eq_refl demo_same_timestamps eq_refl).
Defined.

Lemma demo_no_such_user :
  forall u, In u (DatabaseStorage.users (heap Demo.tables)) -> user_id u <> "zz".
Proof. intros u [<-|[<-|[<-|[<-|[]]]]]; discriminate. Defined.

Lemma database_updateBookingStatus_not_atomic_witness :
  In Demo.row2 (DatabaseStorage.bookings (heap Demo.tables))
  /\ exists e w',
       DatabaseStorage.updateBookingStatus "b" gd_approved "zz" None
         Demo.env Demo.tables = (Throw e, w')
       /\ (exists b', In b' (DatabaseStorage.bookings (heap w'))
                      /\ id b' = "b" /\ status b' = gd_approved
                      /\ userId b' = userId Demo.row2)
       /\ DatabaseStorage.bookingHistory (heap w')
          = DatabaseStorage.bookingHistory (heap Demo.tables).
Proof.
  assert (H1 : In Demo.row2 (DatabaseStorage.bookings (heap Demo.tables)))
    by (right; left; reflexivity).
  split; [exact H1|].
  exact (database_updateBookingStatus_not_atomic Demo.env Demo.tables "b"
           gd_approved "zz" None Demo.row2 H1 eq_refl demo_no_such_user).
Defined.

(** ** Writing and then reading *)

Section CreatedBookings.
Import PersistentStorage PersistentListings Routes.
Variable env : Env.
Implicit Types (w : Sys Store) (actor : User) (f : InsertBooking).

Lemma find_app_fresh (l : list Booking) nb :
  ~ In (id nb) (List.map id l) -> find (byId (id nb)) (l ++ [nb]) = Some nb.
Proof.
  unfold find. induction l as [|x t IH]; simpl; intros H.
  - unfold byId. rewrite streq_refl. reflexivity.
  - destruct (byId (id nb) x) eqn:E.
    + exfalso. apply H. left. apply streq_true in E. exact E.
    + apply IH. tauto.
Qed.

Lemma not_joined_not_listed st d :
  ~ joined st d ->
  ~ In d (getAllBookings st)
  /\ (forall uid, ~ In d (getBookingsByUser st uid))
  /\ (forall role, ~ In d (getBookingsByRole st role)
                   /\ ~ In d (getProcessedBookingsByRole st role)).
Proof.
  intros Hj. split; [|split].
  - unfold getAllBookings. rewrite sortDesc_In, withDetails_In. exact Hj.
  - intros uid. unfold getBookingsByUser. rewrite sortDesc_In, withDetails_In.
    intros (H & Hu & Hv). apply Hj. apply List.filter_In in H as [H _].
    repeat split; assumption.
  - intros role. split; intros H.
    + apply (proj1 (queues_iff st role d)) in H. tauto.
    + apply (proj1 (proj2 (queues_iff st role d))) in H. tauto.
Qed.

(** X25. The answer of POST /api/venues/check-availability predicts the
    booking routes. The check writes nothing. When it answers available
    for the slot of a form, POST /api/bookings with that form creates the
    booking; when it answers not available, the POST is answered 400
    "Venue not available for the selected time slot". With the id of a
    booking as [excludeBookingId] it predicts in the same way the edit of
    that booking by its owner while the booking can be edited. *)
Theorem availability_answer_predicts_the_routes w actor f :
  (exists a,
     postCheckAvailability (ins_venueId f) (ins_eventDate f) (ins_startTime f)
       (ins_endTime f) None env w = (Ok (json (AvailableJson a)), w)
     /\ if a
        then exists nb, fst (postBooking actor (Some f) env w)
                        = Ok (json (BookingJson nb))
        else postBooking actor (Some f) env w = (Ok venueNotAvailable, w))
  /\ forall id0 existing,
       getBooking (heap w) id0 = Some existing ->
       userId (bwd_booking existing) = user_id actor ->
       editable (status (bwd_booking existing)) = true ->
       exists a,
         postCheckAvailability (ins_venueId f) (ins_eventDate f) (ins_startTime f)
           (ins_endTime f) (Some id0) env w = (Ok (json (AvailableJson a)), w)
         /\ if a
            then exists b', fst (patchBooking actor id0 (Some f) env w)
                            = Ok (json (BookingJson b'))
            else patchBooking actor id0 (Some f) env w = (Ok venueNotAvailable, w).
Proof.
  split.
  - exists (checkVenueAvailability (heap w) (ins_venueId f) (ins_eventDate f)
              (ins_startTime f) (ins_endTime f) None).
    split; [reflexivity|].
    destruct (checkVenueAvailability _ _ _ _ _ _) eqn:Ha.
    + rewrite (postBooking_created env w actor f Ha). eexists. reflexivity.
    + exact (postBooking_conflict env w actor f Ha).
  - intros id0 existing Hg Ho He.
    exists (checkVenueAvailability (heap w) (ins_venueId f) (ins_eventDate f)
              (ins_startTime f) (ins_endTime f) (Some id0)).
    split; [reflexivity|].
    destruct (checkVenueAvailability _ _ _ _ _ _) eqn:Ha.
    + destruct (getBooking_Some w id0 existing Hg) as (i & Hi & Hl & Hid).
      rewrite (patchBooking_done env w actor id0 f existing i Hg Hi Hl Ho He Ha).
      eexists. reflexivity.
    + exact (patchBooking_conflict env w actor id0 f existing Hg Ho He Ha).
Qed.

(** X26. A booking that was created can be read. When the id drawn is not
    the id of a stored booking and the store has the acting user and the
    venue of the form, then after a successful POST /api/bookings the new
    booking is what GET /api/bookings/:id returns for its id, it is in
    the list of its owner and in the pending queue of the group director,
    and it is in no processed list. *)
Theorem created_booking_is_listed w actor f u v :
  freshId env w ->
  getUser (heap w) (user_id actor) = Some u ->
  getVenue (heap w) (ins_venueId f) = Some v ->
  checkVenueAvailability (heap w) (ins_venueId f) (ins_eventDate f)
    (ins_startTime f) (ins_endTime f) None = true ->
  let w' := snd (postBooking actor (Some f) env w) in
  let d := mkBookingWithDetails (newBooking env w (parsed actor f)) u v in
  ReadRoutes.getBookingById (id (bwd_booking d)) (heap w') = ReadRoutes.OneBooking d
  /\ ReadRoutes.getUserBookings actor (heap w')
     = ReadRoutes.BookingList (getBookingsByUser (heap w') (user_id actor))
  /\ In d (getBookingsByUser (heap w') (user_id actor))
  /\ In d (getBookingsByRole (heap w') group_director)
  /\ forall role, ~ In d (getProcessedBookingsByRole (heap w') role).
Proof.
  intros Hf Hu Hv Ha. cbv zeta.
  rewrite (postBooking_created env w actor f Ha). cbn [snd heap bwd_booking].
  set (nb := newBooking env w (parsed actor f)).
  set (st' := mkStore _ _ _ _).
  assert (Hj : joined st' (mkBookingWithDetails nb u v)).
  { unfold joined. cbn [bwd_booking bwd_user bwd_venue]. split; [|split].
    - unfold st'. cbn [bookings]. apply in_or_app. right. left. reflexivity.
    - exact Hu.
    - exact Hv. }
  split; [|split; [reflexivity|split; [|split]]].
  - unfold ReadRoutes.getBookingById, getBooking. unfold st' at 1. cbn [bookings].
    change (fun b => streq (id b) (id nb)) with (byId (id nb)).
    rewrite (find_app_fresh _ nb Hf).
    destruct Hj as (_ & Hu' & Hv'). cbn [bwd_booking bwd_user bwd_venue] in Hu', Hv'.
    rewrite Hu', Hv'. reflexivity.
  - unfold getBookingsByUser. rewrite sortDesc_In, withDetails_In, List.filter_In.
    destruct Hj as (Hin & Hu' & Hv'). split; [split|split]; try assumption.
    apply streq_refl.
  - apply (proj1 (queues_iff st' group_director _)). split; [exact Hj|reflexivity].
  - intros role H. apply (proj1 (proj2 (queues_iff st' role _))) in H as [_ H].
    cbn [bwd_booking] in H. destruct role; simpl in H; intuition discriminate.
Qed.

(** X27. The creation route does not look the venue up. A form for a venue
    that is not stored is accepted when its slot is free, and the booking
    is stored; but GET /api/bookings/:id answers 404 for its id and no
    listing, of its owner or of any role, shows it. *)
Theorem booking_for_unknown_venue_is_lost w actor f :
  freshId env w ->
  getVenue (heap w) (ins_venueId f) = None ->
  checkVenueAvailability (heap w) (ins_venueId f) (ins_eventDate f)
    (ins_startTime f) (ins_endTime f) None = true ->
  let nb := newBooking env w (parsed actor f) in
  let w' := snd (postBooking actor (Some f) env w) in
  fst (postBooking actor (Some f) env w) = Ok (json (BookingJson nb))
  /\ In nb (bookings (heap w'))
  /\ ReadRoutes.getBookingById (id nb) (heap w')
     = ReadRoutes.Refused (statusJson 404 (Message "Booking not found"))
  /\ forall d, bwd_booking d = nb ->
       ~ In d (getAllBookings (heap w'))
       /\ (forall uid, ~ In d (getBookingsByUser (heap w') uid))
       /\ (forall role, ~ In d (getBookingsByRole (heap w') role)
                        /\ ~ In d (getProcessedBookingsByRole (heap w') role)).
Proof.
  intros Hf Hv Ha. cbv zeta.
  rewrite (postBooking_created env w actor f Ha). cbn [fst snd heap].
  set (nb := newBooking env w (parsed actor f)).
  set (st' := mkStore _ _ _ _).
  assert (Hv' : getVenue st' (venueId nb) = None) by exact Hv.
  split; [reflexivity|]. split; [|split].
  - unfold st'. cbn [bookings]. apply in_or_app. right. left. reflexivity.
  - unfold ReadRoutes.getBookingById, getBooking. unfold st' at 1. cbn [bookings].
    change (fun b => streq (id b) (id nb)) with (byId (id nb)).
    rewrite (find_app_fresh _ nb Hf). rewrite Hv'.
    destruct (getUser st' (userId nb)); reflexivity.
  - intros d Hd. apply not_joined_not_listed. intros (_ & _ & Hq).
    rewrite Hd in Hq. congruence.
Qed.
End CreatedBookings.

Lemma demo_start_fresh : freshId Demo.env Demo.start.
Proof. exact (fun H => H). Defined.

Lemma created_booking_is_listed_witness :
  freshId Demo.env Demo.start
  /\ ReadRoutes.getBookingById "a"
       (heap (snd (Routes.postBooking Demo.alice (Some (Demo.form "10:00" "12:00"))
                     Demo.env Demo.start)))
     = ReadRoutes.OneBooking
         (PersistentStorage.mkBookingWithDetails
            (newBooking Demo.env Demo.start
               (parsed Demo.alice (Demo.form "10:00" "12:00")))
            Demo.alice Demo.hall).
Proof.
  split; [exact demo_start_fresh|].
  exact (proj1 (created_booking_is_listed Demo.env Demo.start Demo.alice
                  (Demo.form "10:00" "12:00") Demo.alice Demo.hall
                  demo_start_fresh eq_refl eq_refl eq_refl)).
Defined.

Lemma booking_for_unknown_venue_is_lost_witness :
  PersistentStorage.getVenue (heap Demo.start) (ins_venueId Scenario.offsiteForm) = None
  /\ fst (Routes.postBooking Demo.alice (Some Scenario.offsiteForm) Demo.env Demo.start)
     = Ok (Routes.json (Routes.BookingJson
             (newBooking Demo.env Demo.start
                (parsed Demo.alice Scenario.offsiteForm))))
  /\ ReadRoutes.getBookingById "a"
       (heap (snd (Routes.postBooking Demo.alice (Some Scenario.offsiteForm)
                     Demo.env Demo.start)))
     = ReadRoutes.Refused
         (Routes.statusJson 404 (Routes.Message "Booking not found")).
Proof.
  split; [reflexivity|].
  pose proof (booking_for_unknown_venue_is_lost Demo.env Demo.start Demo.alice
                Scenario.offsiteForm demo_start_fresh eq_refl eq_refl)
    as (H1 & _ & H3 & _).
  split; [exact H1|exact H3].
Defined.
